(** * Paginated organizations list: loader, table renderer, page component
      and resource action

    A shallow embedding of
      - [src/app/routes/organizations.tsx]  (loader, OrganizationsTable,
        OrganizationsPage and its handlePageChange),
      - [src/app/routes/resources.organizations.ts]  (action),
    together with the parts of the JavaScript runtime those functions call
    ([parseInt], [Number.prototype.toString], [FormData.get], [Promise.all],
    [||], [?.]).

    Conventions.
      - JavaScript strings that carry user input (form values, query
        parameters) are sequences of UTF-16 code units, [list N].  Literal
        text of the program (property names, messages, HTTP methods) is a Rocq
        [string]; [str] embeds a literal into code units.
      - A JavaScript number that the program uses as an integer is a [Z];
        the result of [parseInt] is a [number], which adds [NaN].  Both
        zeros are the integer 0 (they are equally falsy).  The embedding is
        exact on the safe integers, where doubles represent integers
        without rounding.
      - Asynchronous code is written in a small monad [Eff] that threads
        the trace of observable events (queries run, console output) and
        propagates thrown values, with [try_catch] for try/catch. *)

From Stdlib Require Import ZArith QArith Qround Lia List Ascii String.
From Stdlib Require Import DecimalZ DecimalPos.
From stdpp Require Import base option list gmap strings.
Import ListNotations.

Local Open Scope Z_scope.

(* ===================================================================== *)
(** ** JavaScript strings and numbers                                     *)
(* ===================================================================== *)

Module JS.

Abbreviation jsstring := (list N).

(** A program literal as a sequence of code units. *)
Definition str (s : string) : jsstring :=
  map N_of_ascii (list_ascii_of_string s).

Fixpoint jsstring_eqb (a b : jsstring) : bool :=
  match a, b with
  | [], [] => true
  | x :: a', y :: b' => N.eqb x y && jsstring_eqb a' b'
  | _, _ => false
  end.

(** The integers a double holds without rounding.  [parseInt] below reads,
    and [toString] prints, the mathematical integer; within this range that
    is what JavaScript does, and beyond it JavaScript rounds to a double and
    prints the rounded value, which is not modelled: the properties of
    texts that a client can choose are stated for safe integers. *)
Definition MAX_SAFE_INTEGER : Z := 9007199254740991.

Definition isSafeInteger (z : Z) : bool := Z.abs z <=? MAX_SAFE_INTEGER.

(** Numbers as [parseInt] returns them: NaN, or the number read, given by
    the integer its digits denote. *)
Inductive number :=
  | NaN
  | Num (z : Z).

(** [n || d] where [d] is an integer literal: NaN and zero are falsy. *)
Definition or_default (n : number) (d : Z) : Z :=
  match n with
  | NaN => d
  | Num z => if z =? 0 then d else z
  end.

(** *** Number.prototype.toString on integers

    The decimal text of an integer: what JavaScript prints for every safe
    integer. *)

Fixpoint digits (u : Decimal.uint) : jsstring :=
  match u with
  | Decimal.Nil => []
  | Decimal.D0 u => 48%N :: digits u
  | Decimal.D1 u => 49%N :: digits u
  | Decimal.D2 u => 50%N :: digits u
  | Decimal.D3 u => 51%N :: digits u
  | Decimal.D4 u => 52%N :: digits u
  | Decimal.D5 u => 53%N :: digits u
  | Decimal.D6 u => 54%N :: digits u
  | Decimal.D7 u => 55%N :: digits u
  | Decimal.D8 u => 56%N :: digits u
  | Decimal.D9 u => 57%N :: digits u
  end.

Definition toString (z : Z) : jsstring :=
  match Z.to_int z with
  | Decimal.Pos u => digits u
  | Decimal.Neg u => 45%N :: digits u
  end.

(** *** parseInt(string) with the radix argument absent

    The integer the longest prefix of digits denotes: what JavaScript
    returns whenever that integer is safe. *)

(** WhiteSpace and LineTerminator code points (ECMAScript TrimString). *)
Definition whiteSpaceCodes : list N :=
  [9; 10; 11; 12; 13; 32; 160; 5760;
   8192; 8193; 8194; 8195; 8196; 8197; 8198; 8199; 8200; 8201; 8202;
   8232; 8233; 8239; 8287; 12288; 65279]%N.

Definition isWhiteSpace (c : N) : bool := existsb (N.eqb c) whiteSpaceCodes.

Fixpoint trimStart (s : jsstring) : jsstring :=
  match s with
  | c :: s' => if isWhiteSpace c then trimStart s' else s
  | [] => []
  end.

(** Value of a code unit as a digit in the largest radix, 36. *)
Definition digitValue (c : N) : option Z :=
  if ((48 <=? c) && (c <=? 57))%N then Some (Z.of_N c - 48)
  else if ((97 <=? c) && (c <=? 122))%N then Some (Z.of_N c - 87)
  else if ((65 <=? c) && (c <=? 90))%N then Some (Z.of_N c - 55)
  else None.

Definition radixDigit (R : Z) (c : N) : option Z :=
  match digitValue c with
  | Some d => if d <? R then Some d else None
  | None => None
  end.

(** The longest prefix of radix-[R] digits, read most significant digit
    first; [None] while no digit has been read. *)
Fixpoint parseDigits (R : Z) (s : jsstring) (acc : option Z) : option Z :=
  match s with
  | c :: s' =>
      match radixDigit R c with
      | Some d => parseDigits R s' (Some (R * default 0 acc + d))
      | None => acc
      end
  | [] => acc
  end.

(** A leading "-" or "+" is removed and gives the sign. *)
Definition stripSign (s : jsstring) : Z * jsstring :=
  match s with
  | c :: s' =>
      if (c =? 45)%N then (-1, s')
      else if (c =? 43)%N then (1, s')
      else (1, s)
  | [] => (1, [])
  end.

(** A leading "0x" or "0X" is removed and selects radix 16; otherwise the
    radix is 10. *)
Definition stripPrefix (s : jsstring) : Z * jsstring :=
  match s with
  | c0 :: c1 :: s' =>
      if ((c0 =? 48) && ((c1 =? 120) || (c1 =? 88)))%N then (16, s')
      else (10, s)
  | _ => (10, s)
  end.

Definition parseInt (input : jsstring) : number :=
  let '(sign, s1) := stripSign (trimStart input) in
  let '(R, s2) := stripPrefix s1 in
  match parseDigits R s2 None with
  | None => NaN
  | Some m => Num (sign * m)
  end.

End JS.

Import JS.

(* ===================================================================== *)
(** ** Effects: events, thrown values, try/catch                          *)
(* ===================================================================== *)

(** The two SQL statements of [organizations.tsx]. *)
Inductive Sql :=
  | organizationsQuery
  | organizationsCountQuery.

Definition sqlText (q : Sql) : list string :=
  match q with
  | organizationsQuery =>          (* the lines of the template text *)
      ["SELECT organization_id, organization_name, industry, address, phone, email, subscription_tier, created_at";
       "FROM organizations";
       "ORDER BY organization_name";
       "LIMIT $1 OFFSET $2"]
  | organizationsCountQuery =>
      ["SELECT COUNT(*) as total FROM organizations"]
  end.

Record OrganizationData := {
  organization_id : Z;
  organization_name : string;
  industry : string;
  address : string;
  phone : string;
  email : string;
  subscription_tier : string;
  created_at : string
}.

Record OrganizationCountData := { total : Z }.

Definition RowOf (q : Sql) : Type :=
  match q with
  | organizationsQuery => OrganizationData
  | organizationsCountQuery => OrganizationCountData
  end.

(** Modelled from the spec: the result type [QueryData<T>] of
    [@/db/execute-query], which is not among the sources.  The spec gives it
    as "query-result metadata (error flag + rows)", with a query-layer error
    "surfaced as isError: true with message"; the sources read its fields
    [isError] and [data]. *)
Inductive QueryData (T : Type) :=
  | QueryOk (data : T)
  | QueryError (errorMessage : string).
Arguments QueryOk {T} data.
Arguments QueryError {T} errorMessage.

Definition isError {T} (q : QueryData T) : bool :=
  match q with
  | QueryOk _ => false
  | QueryError _ => true
  end.

(** [q.data], undefined on an error result. *)
Definition data {T} (q : QueryData T) : option T :=
  match q with
  | QueryOk d => Some d
  | QueryError _ => None
  end.

(** A thrown value: an [Error] with its message, or anything else. *)
Inductive Thrown :=
  | ThrownError (message : string)
  | ThrownOther.

Inductive Completion (A : Type) :=
  | Normal (a : A)
  | Throw (e : Thrown).
Arguments Normal {A} a.
Arguments Throw {A} e.

Inductive Event :=
  | QueryRun (q : Sql) (params : option (list jsstring))
  | ConsoleError (label : string) (error : Thrown).

(** A computation: how it completes, and the events it emitted in order. *)
Definition Eff (A : Type) : Type := Completion A * list Event.

Definition ret {A} (a : A) : Eff A := (Normal a, []).

Definition bind {A B} (m : Eff A) (k : A -> Eff B) : Eff B :=
  match m with
  | (Normal a, t) => let '(c, t') := k a in (c, t ++ t')
  | (Throw e, t) => (Throw e, t)
  end.

Definition try_catch {A} (m : Eff A) (handler : Thrown -> Eff A) : Eff A :=
  match m with
  | (Normal a, t) => (Normal a, t)
  | (Throw e, t) => let '(c, t') := handler e in (c, t ++ t')
  end.

Definition await {A} (c : Completion A) : Eff A := (c, []).

Definition console_error (label : string) (error : Thrown) : Eff unit :=
  (Normal tt, [ConsoleError label error]).

Notation "'let!' x ':=' m 'in' k" := (bind m (fun x => k))
  (at level 10, x name, m at level 100, k at level 200).

(** The database behind [executeQuery]: for a statement and its positional
    parameters, the query either returns a [QueryData] or throws. *)
Record Database := {
  run : forall q : Sql, option (list jsstring) ->
        Completion (QueryData (list (RowOf q)))
}.

Definition executeQuery (db : Database) (q : Sql)
    (params : option (list jsstring)) : Eff (QueryData (list (RowOf q))) :=
  (run db q params, [QueryRun q params]).

(** Which of the two promises given to [Promise.all] settles first. *)
Inductive Race :=
  | FirstSettlesFirst
  | SecondSettlesFirst.

(** [Promise.all([p1, p2])]: both computations have been started; the
    result is the pair of values, or the rejection that happened first. *)
Definition Promise_all {A B} (race : Race) (p1 : Eff A) (p2 : Eff B)
    : Eff (A * B) :=
  let '(c1, t1) := p1 in
  let '(c2, t2) := p2 in
  (match c1, c2 with
   | Normal a, Normal b => Normal (a, b)
   | Throw e, Normal _ => Throw e
   | Normal _, Throw e => Throw e
   | Throw e1, Throw e2 =>
       Throw (match race with
              | FirstSettlesFirst => e1
              | SecondSettlesFirst => e2
              end)
   end, t1 ++ t2).

(** The JSON payloads that travel from the server to the page: an object
    [{error}], or a [QueryData] of organization rows. *)
Inductive Json :=
  | JError (error : string)
  | JQuery (q : QueryData (list OrganizationData)).

(* ===================================================================== *)
(** ** src/app/routes/resources.organizations.ts                          *)
(* ===================================================================== *)

Module Resources.

Inductive FormDataEntryValue :=
  | EntryString (s : jsstring)
  | EntryFile (name : jsstring).

Abbreviation FormData := (list (jsstring * FormDataEntryValue)).

(** [formData.get(name)]: the first entry with that name, or null. *)
Fixpoint FormData_get (fd : FormData) (name : jsstring)
    : option FormDataEntryValue :=
  match fd with
  | [] => None
  | (k, v) :: fd' => if jsstring_eqb k name then Some v else FormData_get fd' name
  end.

(** ToString, as [parseInt] applies it to its argument ([as string] is
    erased at run time). *)
Definition ToString (v : option FormDataEntryValue) : jsstring :=
  match v with
  | None => str "null"
  | Some (EntryString s) => s
  | Some (EntryFile _) => str "[object File]"
  end.

Record Request := {
  method : string;
  formData : Completion FormData   (* outcome of [request.formData()] *)
}.

Record Response := {
  status : Z;
  json : Json
}.

Definition Response_json (body : Json) (status : Z) : Response :=
  {| status := status; json := body |}.

(** The local constants [limit] and [offset] of [action]. *)
Definition limit (fd : FormData) : Z :=
  or_default (parseInt (ToString (FormData_get fd (str "limit")))) 10.

Definition offset (fd : FormData) : Z :=
  or_default (parseInt (ToString (FormData_get fd (str "offset")))) 0.

Definition action (db : Database) (request : Request) : Eff Response :=
  if negb (String.eqb (method request) "POST") then
    ret (Response_json (JError "Method not allowed") 405)
  else
    try_catch
      (let! fd := await (formData request) in
       let! organizations :=
         executeQuery db organizationsQuery
           (Some [toString (limit fd); toString (offset fd)]) in
       match organizations with
       | QueryError _ =>            (* organizations.isError *)
           ret (Response_json (JQuery organizations) 200)
       | QueryOk d =>               (* { data: organizations.data, isError: false } *)
           ret (Response_json (JQuery (QueryOk d)) 200)
       end)
      (fun error =>
         let! _ := console_error "Error fetching organizations:" error in
         ret (Response_json (JError "Failed to fetch organizations") 500)).

End Resources.

(* ===================================================================== *)
(** ** src/app/routes/organizations.tsx                                   *)
(* ===================================================================== *)

Module Organizations.

Definition ITEMS_PER_PAGE : Z := 10.

(** *** loader *)

(** The values of the properties of the object the loader returns. *)
Inductive LoaderValue :=
  | LOrganizations (q : QueryData (list OrganizationData))
  | LCount (q : QueryData (list OrganizationCountData))
  | LString (s : string).

(** [error instanceof Error ? error.message : 'Failed to load organizations data'] *)
Definition messageOf (error : Thrown) : string :=
  match error with
  | ThrownError message => message
  | ThrownOther => "Failed to load organizations data"
  end.

Definition loader (db : Database) (race : Race) : Eff (gmap string LoaderValue) :=
  try_catch
    (let! both :=
       Promise_all race
         (executeQuery db organizationsQuery
            (Some [toString ITEMS_PER_PAGE; str "0"]))
         (executeQuery db organizationsCountQuery None) in
     let '(organizations, organizationsCount) := both in
     ret ({[ "organizations" := LOrganizations organizations;
             "organizationsCount" := LCount organizationsCount ]}))
    (fun error =>
       let! _ := console_error "Error in organizations loader:" error in
       ret ({[ "error" := LString (messageOf error) ]})).

(** *** OrganizationsTable *)

Module Table.

(** The props; [onPageChange] is represented in the view by the page each
    button passes to it. *)
Record Props := {
  organizations : list OrganizationData;
  organizationsCount : Z;
  isLoading : bool;
  currentPage : Z
}.

Record Button := {
  label : string;
  onClick : Z;        (* argument of [onPageChange] *)
  disabled : bool
}.

Inductive Cell :=
  | CellNumber (n : Z)
  | CellText (s : string)
  | CellLocaleDate (iso : string).   (* new Date(..).toLocaleDateString() *)

Inductive Body :=
  | LoadingRow                       (* "Loading..." *)
  | EmptyRow                         (* "No organizations found" *)
  | Rows (rows : list (Z * list Cell)).  (* key, cells *)

Record View := {
  pageOf : Z * Z;                    (* "Page {currentPage} of {totalPages}" *)
  previous : Button;
  next : Button;
  body : Body
}.

Definition totalPages (organizationsCount : Z) : Z :=
  if organizationsCount >? 0
  then Qceiling (inject_Z organizationsCount / inject_Z ITEMS_PER_PAGE)
  else 0.

Definition row (org : OrganizationData) : Z * list Cell :=
  (organization_id org,
   [CellNumber (organization_id org);
    CellText (organization_name org);
    CellText (industry org);
    CellText (address org);
    CellText (phone org);
    CellText (email org);
    CellText (subscription_tier org);
    CellLocaleDate (created_at org)]).

Definition OrganizationsTable (props : Props) : View :=
  let totalPages := totalPages (organizationsCount props) in
  {| pageOf := (currentPage props, totalPages);
     previous :=
       {| label := "Previous";
          onClick := currentPage props - 1;
          disabled := (currentPage props =? 1) || isLoading props |};
     next :=
       {| label := "Next";
          onClick := currentPage props + 1;
          disabled := (currentPage props =? totalPages) || isLoading props |};
     body :=
       if isLoading props then LoadingRow
       else if (length (organizations props) =? 0)%nat then EmptyRow
       else Rows (map row (organizations props)) |}.

End Table.

(** *** The fetcher of [useFetcher] *)

Module Fetcher.

Inductive State := idle | submitting | loading.

Record SubmitOptions := {
  method : string;
  action : string
}.

Record Submission := {
  target : list (jsstring * jsstring);   (* the form fields, in order *)
  options : SubmitOptions
}.

Record t := {
  data : option Json;
  state : State;
  submissions : list Submission          (* requests sent so far *)
}.

Definition initial : t := {| data := None; state := idle; submissions := [] |}.

(** [fetcher.submit(target, options)]: the request is recorded and the
    fetcher is submitting; the data of an earlier response stays. *)
Definition submit (f : t) (target : list (jsstring * jsstring))
    (options : SubmitOptions) : t :=
  {| data := data f;
     state := submitting;
     submissions := submissions f ++ [{| target := target; options := options |}] |}.

(** The response body arrives. *)
Definition settle (f : t) (body : Json) : t :=
  {| data := Some body; state := idle; submissions := submissions f |}.

Definition state_eqb (a b : State) : bool :=
  match a, b with
  | idle, idle | submitting, submitting | loading, loading => true
  | _, _ => false
  end.

End Fetcher.

(** *** OrganizationsPage *)

(** The state the component reads through its hooks: [useLoaderData],
    [useFetcher] and [useState(1)].  The loader data is what the loader
    last returned for this page; page changes go through the fetcher. *)
Record PageState := {
  loaderData : gmap string LoaderValue;
  fetcher : Fetcher.t;
  currentPage : Z
}.

Definition initial (loaderData : gmap string LoaderValue) : PageState :=
  {| loaderData := loaderData; fetcher := Fetcher.initial; currentPage := 1 |}.

Definition handlePageChange (page : Z) (s : PageState) : PageState :=
  let offset := (page - 1) * ITEMS_PER_PAGE in
  {| loaderData := loaderData s;
     currentPage := page;                            (* setCurrentPage(page) *)
     fetcher :=
       Fetcher.submit (fetcher s)
         [(str "limit", toString ITEMS_PER_PAGE);
          (str "offset", toString offset)]
         {| Fetcher.method := "post";
            Fetcher.action := "/resources/organizations" |} |}.

Inductive Wrapped (V : Type) :=
  | ShowsError (message : string)
  | Renders (v : V).
Arguments ShowsError {V} message.
Arguments Renders {V} v.

(** Modelled from the spec: the component [WithErrorHandling] of
    [@/components/hoc/error-handling-wrapper], which is not among the
    sources.  The spec has a query-layer error "handled by the generic
    wrapper - rendered to the user", and an error object shown as one error
    message; otherwise the wrapper calls [render] on the rows. *)
Definition WithErrorHandling {V} (queryData : Json)
    (render : list OrganizationData -> V) : Wrapped V :=
  match queryData with
  | JError message => ShowsError message
  | JQuery (QueryError message) => ShowsError message
  | JQuery (QueryOk rows) => Renders (render rows)
  end.

Inductive PageView :=
  | ErrorOnly (w : Wrapped unit)
  | Container (heading : string) (w : Wrapped Table.View).

(** [loaderData.organizationsCount.data?.[0]?.total] *)
Definition firstTotal (q : QueryData (list OrganizationCountData)) : option Z :=
  match data q with
  | Some (r :: _) => Some (total r)
  | Some [] => None
  | None => None
  end.

(** [v || 0] *)
Definition orZero (v : option Z) : Z :=
  match v with
  | Some n => if n =? 0 then 0 else n
  | None => 0
  end.

(** [fetcher.data?.data] *)
Definition fetcherRows (f : Fetcher.t) : option (list OrganizationData) :=
  match Fetcher.data f with
  | Some (JQuery q) => data q
  | Some (JError _) => None
  | None => None
  end.

(** The two constants computed before the markup; [None] where a property
    of the loader's return type is absent from the loader data. *)
Definition organizationsData (s : PageState) : option (list OrganizationData) :=
  match loaderData s !! "organizations" with
  | Some (LOrganizations q) =>
      match fetcherRows (fetcher s) with
      | Some rows => Some rows          (* an array is truthy *)
      | None => data q
      end
  | _ => None
  end.

Definition organizationsCount (s : PageState) : option Z :=
  match loaderData s !! "organizationsCount" with
  | Some (LCount q) => Some (orZero (firstTotal q))
  | _ => None
  end.

Definition OrganizationsPage (s : PageState) : option PageView :=
  match loaderData s !! "error" with
  | Some (LString message) =>                       (* 'error' in loaderData *)
      Some (ErrorOnly (WithErrorHandling (JError message) (fun _ => tt)))
  | Some _ => None
  | None =>
      match loaderData s !! "organizations", organizationsCount s with
      | Some (LOrganizations organizations), Some organizationsCount =>
          Some (Container "Organizations"
                  (WithErrorHandling
                     (match Fetcher.data (fetcher s) with
                      | Some d => d
                      | None => JQuery organizations
                      end)
                     (fun data =>
                        Table.OrganizationsTable
                          {| Table.organizations := data;
                             Table.organizationsCount := organizationsCount;
                             Table.isLoading :=
                               Fetcher.state_eqb (Fetcher.state (fetcher s))
                                 Fetcher.submitting;
                             Table.currentPage := currentPage s |})))
      | _, _ => None
      end
  end.

(** What can happen to a mounted page: a call of [handlePageChange], the
    arrival of the response to the fetcher's request, or a revalidation.
    The page submits by post and the route declares no [shouldRevalidate],
    so after the action has answered the framework runs the route's loader
    again, against the database as it then is, and what the loader returns
    replaces the loader data. *)
Inductive PageEvent :=
  | PageChange (page : Z)
  | Settled (body : Json)
  | Revalidated (db : Database) (race : Race).

Definition step (s : PageState) (e : PageEvent) : PageState :=
  match e with
  | PageChange page => handlePageChange page s
  | Settled body =>
      {| loaderData := loaderData s;
         fetcher := Fetcher.settle (fetcher s) body;
         currentPage := currentPage s |}
  | Revalidated db race =>
      match fst (loader db race) with
      | Normal data =>
          {| loaderData := data;
             fetcher := fetcher s;
             currentPage := currentPage s |}
      | Throw _ => s
      end
  end.

Definition run_events (s : PageState) (es : list PageEvent) : PageState :=
  fold_left step es s.

(** The request the framework sends for a submission: the method in upper
    case, the fields as form data. *)
Definition upper (c : ascii) : ascii :=
  let n := nat_of_ascii c in
  if ((97 <=? n) && (n <=? 122))%nat then ascii_of_nat (n - 32) else c.

Definition toUpperCase (s : string) : string :=
  string_of_list_ascii (map upper (list_ascii_of_string s)).

Definition request_of (sub : Fetcher.Submission) : Resources.Request :=
  {| Resources.method := toUpperCase (Fetcher.method (Fetcher.options sub));
     Resources.formData :=
       Normal (map (fun kv => (fst kv, Resources.EntryString (snd kv)))
                   (Fetcher.target sub)) |}.

End Organizations.

Import Organizations.

(* ===================================================================== *)
(** ** src/unnamed/part_000: the index route                              *)
(* ===================================================================== *)

Module IndexRoute.

(** [loader]: the organizations loader, called as it is. *)
Definition loader (db : Database) (race : Race)
    : Eff (gmap string LoaderValue) :=
  Organizations.loader db race.

Inductive View :=
  | ErrorComponent (errorMessage : string)
  | Page (v : PageView).               (* <OrganizationsPage {...data} /> *)

(** [Index].  Its [data] is the loader data of the state; the page below it
    reads the same loader data through its own hook and takes no props. *)
Definition Index (s : PageState) : option View :=
  match loaderData s !! "error" with
  | Some (LString error) => Some (ErrorComponent error)   (* 'error' in data *)
  | Some _ => None
  | None => Page <$> OrganizationsPage s
  end.

End IndexRoute.

(* ===================================================================== *)
(** ** Vocabulary of the properties                                       *)
(* ===================================================================== *)

Definition isDecimalDigit (c : N) : bool := ((48 <=? c) && (c <=? 57))%N.

(** A text is non-numeric when, after leading white space and one optional
    sign, it does not begin with a decimal digit. *)
Definition non_numeric (s : jsstring) : bool :=
  match snd (stripSign (trimStart s)) with
  | [] => true
  | c :: _ => negb (isDecimalDigit c)
  end.




(** The queries a computation ran, in order. *)
Fixpoint queriesRun (t : list Event) : list (Sql * option (list jsstring)) :=
  match t with
  | [] => []
  | QueryRun q params :: t' => (q, params) :: queriesRun t'
  | ConsoleError _ _ :: t' => queriesRun t'
  end.

Definition throws {A} (c : Completion A) : Prop :=
  match c with
  | Normal _ => False
  | Throw _ => True
  end.

(** The errors a computation wrote to the console, in order. *)
Fixpoint consoleErrors (t : list Event) : list (string * Thrown) :=
  match t with
  | [] => []
  | QueryRun _ _ :: t' => consoleErrors t'
  | ConsoleError label error :: t' => (label, error) :: consoleErrors t'
  end.

(** The loader data in force after some events: what the latest
    revalidation loaded, or the data the page started with. *)
Fixpoint latestLoad (data : gmap string LoaderValue) (es : list PageEvent)
    : gmap string LoaderValue :=
  match es with
  | [] => data
  | Revalidated db race :: es' =>
      latestLoad (match fst (loader db race) with
                  | Normal data' => data'
                  | Throw _ => data
                  end) es'
  | _ :: es' => latestLoad data es'
  end.

Definition isRevalidation (e : PageEvent) : bool :=
  match e with
  | Revalidated _ _ => true
  | _ => false
  end.

(** The number of calls of [handlePageChange] among some events. *)
Fixpoint pageChanges (es : list PageEvent) : nat :=
  match es with
  | [] => 0
  | PageChange _ :: es' => S (pageChanges es')
  | Settled _ :: es' => pageChanges es'
  | Revalidated _ _ :: es' => pageChanges es'
  end.

(** The submission [handlePageChange] makes for an offset. *)
Definition submissionFor (offset : Z) : Fetcher.Submission :=
  {| Fetcher.target := [(str "limit", str "10"); (str "offset", toString offset)];
     Fetcher.options := {| Fetcher.method := "post";
                           Fetcher.action := "/resources/organizations" |} |}.

(** An error payload and its message. *)
Definition errorOf (body : Json) : option string :=
  match body with
  | JError message => Some message
  | JQuery (QueryError message) => Some message
  | JQuery (QueryOk _) => None
  end.

(** The parameters of the loader's two queries. *)
Definition firstPage : option (list jsstring) := Some [str "10"; str "0"].

(** Both initial queries succeed: each returns rows. *)
Definition both_succeed (db : Database) : Prop :=
  exists rows counts,
    run db organizationsQuery firstPage = Normal (QueryOk rows) /\
    run db organizationsCountQuery None = Normal (QueryOk counts).

Definition renders_table (v : option PageView) : Prop :=
  exists heading table, v = Some (Container heading (Renders table)).

Definition shows_one_error (v : option PageView) : Prop :=
  exists message,
    v = Some (ErrorOnly (ShowsError message)) \/
    v = Some (Container "Organizations" (ShowsError message)).

(** "Either both initial queries succeed and the full page renders, or the
    whole page shows one error message", for one run of the loader. *)
Definition no_partial_result (db : Database) (race : Race) : Prop :=
  forall ld,
    fst (loader db race) = Normal ld ->
    (both_succeed db /\ renders_table (OrganizationsPage (initial ld))) \/
    shows_one_error (OrganizationsPage (initial ld)).

(** The rejection that [Promise.all] passes on in the loader, if any. *)
Definition firstRejection (db : Database) (race : Race) : option Thrown :=
  match run db organizationsQuery firstPage,
        run db organizationsCountQuery None with
  | Normal _, Normal _ => None
  | Throw e, Normal _ => Some e
  | Normal _, Throw e => Some e
  | Throw e1, Throw e2 =>
      Some (match race with
            | FirstSettlesFirst => e1
            | SecondSettlesFirst => e2
            end)
  end.

(** *** Sample inputs *)

Definition acme : OrganizationData :=
  {| organization_id := 1; organization_name := "Acme"; industry := "Tools";
     address := "1 Main St"; phone := "555-0100"; email := "info@acme.test";
     subscription_tier := "pro"; created_at := "2024-01-15T00:00:00Z" |}.

(** A database with one organization and a count of 25. *)
Definition sampleDb : Database :=
  {| run := fun q _ =>
       match q with
       | organizationsQuery => Normal (QueryOk [acme])
       | organizationsCountQuery => Normal (QueryOk [{| total := 25 |}])
       end |}.

(** The organizations query throws. *)
Definition throwingDb : Database :=
  {| run := fun q _ =>
       match q with
       | organizationsQuery => Throw (ThrownError "connection refused")
       | organizationsCountQuery => Normal (QueryOk [{| total := 25 |}])
       end |}.

(** The count query returns an error result; the organizations query
    returns a row. *)
Definition countErrorDb : Database :=
  {| run := fun q _ =>
       match q with
       | organizationsQuery => Normal (QueryOk [acme])
       | organizationsCountQuery => Normal (QueryError "relation does not exist")
       end |}.

(** The table has grown to 47 organizations. *)
Definition grownDb : Database :=
  {| run := fun q _ =>
       match q with
       | organizationsQuery => Normal (QueryOk [acme])
       | organizationsCountQuery => Normal (QueryOk [{| total := 47 |}])
       end |}.

(** Both queries throw, the second something that is not an [Error]. *)
Definition downDb : Database :=
  {| run := fun q _ =>
       match q with
       | organizationsQuery => Throw (ThrownError "connection refused")
       | organizationsCountQuery => Throw ThrownOther
       end |}.

(** The loader data of [sampleDb]. *)
Definition sampleData : gmap string LoaderValue :=
  {[ "organizations" := LOrganizations (QueryOk [acme]);
     "organizationsCount" := LCount (QueryOk [{| total := 25 |}]) ]}.

Definition sampleProps : Table.Props :=
  {| Table.organizations := []; Table.organizationsCount := 0;
     Table.isLoading := false; Table.currentPage := 1 |}.

Definition getRequest : Resources.Request :=
  {| Resources.method := "GET"; Resources.formData := Normal [] |}.

Definition post (fd : Resources.FormData) : Resources.Request :=
  {| Resources.method := "POST"; Resources.formData := Normal fd |}.

(* ===================================================================== *)
(** ** parseInt and toString                                              *)
(* ===================================================================== *)

Section ParseInt.

Example parseInt_25 : parseInt (str "25") = Num 25.
Proof. reflexivity. Qed.

Example parseInt_prefix : parseInt (str "  -7px") = Num (-7).
Proof. reflexivity. Qed.

Example parseInt_hex : parseInt (str "0x1A") = Num 26.
Proof. reflexivity. Qed.

Example parseInt_abc : parseInt (str "abc") = NaN.
Proof. reflexivity. Qed.

Example parseInt_null : parseInt (Resources.ToString None) = NaN.
Proof. reflexivity. Qed.

Example toString_neg10 : toString (-10) = str "-10".
Proof. reflexivity. Qed.

Lemma radixDigit_non_digit c :
  isDecimalDigit c = false -> radixDigit 10 c = None.
Proof.
  unfold isDecimalDigit, radixDigit, digitValue. intros ->.
  destruct ((97 <=? c) && (c <=? 122))%N eqn:Hl.
  - apply andb_true_iff in Hl as [H1 H2].
    apply N.leb_le in H1. destruct (Z.ltb_spec (Z.of_N c - 87) 10); [lia | reflexivity].
  - destruct ((65 <=? c) && (c <=? 90))%N eqn:Hu; [| reflexivity].
    apply andb_true_iff in Hu as [H1 H2].
    apply N.leb_le in H1. destruct (Z.ltb_spec (Z.of_N c - 55) 10); [lia | reflexivity].
Qed.

Lemma stripPrefix_non_digit c s :
  isDecimalDigit c = false -> stripPrefix (c :: s) = (10, c :: s).
Proof.
  intros H. unfold stripPrefix. destruct s as [| c1 s']; [reflexivity |].
  destruct (N.eqb_spec c 48) as [-> | _]; [discriminate H | reflexivity].
Qed.

(** A non-numeric text does not parse. *)
Lemma parseInt_non_numeric s : non_numeric s = true -> parseInt s = NaN.
Proof.
  unfold non_numeric, parseInt.
  destruct (stripSign (trimStart s)) as [sign s1]. cbn [snd].
  destruct s1 as [| c s1']; [reflexivity |].
  intros H%negb_true_iff.
  rewrite (stripPrefix_non_digit _ _ H). cbn [parseDigits].
  now rewrite (radixDigit_non_digit _ H).
Qed.

(** Conversely a text that begins, after white space and sign, with a
    decimal digit does parse, the prefix "0x" apart: so ["12abc"] is read as
    12, not as a parse failure. *)
Lemma parseDigits_started R s a : exists m, parseDigits R s (Some a) = Some m.
Proof.
  revert a. induction s as [| c s IH]; intros a; cbn [parseDigits]; [eauto |].
  destruct (radixDigit R c); eauto.
Qed.

Lemma parseInt_numeric s :
  non_numeric s = false ->
  fst (stripPrefix (snd (stripSign (trimStart s)))) = 10 ->
  exists n, parseInt s = Num n.
Proof.
  unfold non_numeric, parseInt.
  destruct (stripSign (trimStart s)) as [sign s1]. cbn [snd].
  destruct s1 as [| c s1']; [discriminate |].
  intros Hd%negb_false_iff.
  destruct (stripPrefix (c :: s1')) as [R s2] eqn:E. cbn [fst]. intros ->.
  assert (s2 = c :: s1') as ->.
  { unfold stripPrefix in E. destruct s1' as [| c1 s1'']; [congruence |].
    destruct ((c =? 48) && ((c1 =? 120) || (c1 =? 88)))%N; congruence. }
  cbn [parseDigits].
  assert (radixDigit 10 c = Some (Z.of_N c - 48)) as ->.
  { unfold radixDigit, digitValue. unfold isDecimalDigit in Hd. rewrite Hd.
    apply andb_true_iff in Hd as [_ H2]. apply N.leb_le in H2.
    destruct (Z.ltb_spec (Z.of_N c - 48) 10); [reflexivity | lia]. }
  destruct (parseDigits_started 10 s1' (10 * default 0 None + (Z.of_N c - 48)))
    as [m ->].
  eauto.
Qed.

Example parseInt_numeric_prefix : parseInt (str "12abc") = Num 12.
Proof. reflexivity. Qed.

Lemma parseDigits_acc u a :
  parseDigits 10 (digits u) (Some (Z.pos a)) = Some (Z.pos (Pos.of_uint_acc u a)).
Proof.
  revert a.
  induction u as [| u IH | u IH | u IH | u IH | u IH | u IH | u IH | u IH | u IH | u IH];
    intros a; [reflexivity | ..];
    cbn [digits parseDigits Pos.of_uint_acc];
    match goal with
    | |- context [radixDigit 10 ?c] =>
        let r := eval vm_compute in (radixDigit 10 c) in
        change (radixDigit 10 c) with r
    end;
    cbn [default]; rewrite <- IH; apply f_equal; apply f_equal; unfold id; lia.
Qed.

Lemma parseDigits_zero u :
  parseDigits 10 (digits u) (Some 0) = Some (Z.of_N (Pos.of_uint u)).
Proof.
  induction u as [| u IH | u IH | u IH | u IH | u IH | u IH | u IH | u IH | u IH | u IH];
    [reflexivity | exact IH | ..];
    cbn [digits parseDigits Pos.of_uint];
    match goal with
    | |- context [radixDigit 10 ?c] =>
        let r := eval vm_compute in (radixDigit 10 c) in
        change (radixDigit 10 c) with r
    end;
    cbn [default]; cbn [Z.of_N]; rewrite <- parseDigits_acc; reflexivity.
Qed.

Lemma parseDigits_start u :
  u <> Decimal.Nil ->
  parseDigits 10 (digits u) None = Some (Z.of_N (Pos.of_uint u)).
Proof.
  intros Hu. rewrite <- parseDigits_zero. destruct u; [congruence | reflexivity ..].
Qed.

Lemma digits_trimStart u : trimStart (digits u) = digits u.
Proof. destruct u; reflexivity. Qed.

Lemma digits_stripSign u : stripSign (digits u) = (1, digits u).
Proof. destruct u; reflexivity. Qed.

Lemma digits_stripPrefix u : stripPrefix (digits u) = (10, digits u).
Proof. destruct u as [| u | u | u | u | u | u | u | u | u | u]; try reflexivity; destruct u; reflexivity. Qed.

Lemma to_uint_not_nil p : Pos.to_uint p <> Decimal.Nil.
Proof.
  intros H. pose proof (DecimalPos.Unsigned.of_to p) as E.
  rewrite H in E. discriminate E.
Qed.

(** Reading back what [toString] printed gives the number. *)
Lemma parseInt_toString z : parseInt (toString z) = Num z.
Proof.
  destruct z as [| p | p]; [reflexivity | |]; unfold toString, parseInt; cbn [Z.to_int].
  - rewrite digits_trimStart, digits_stripSign, digits_stripPrefix.
    rewrite (parseDigits_start _ (to_uint_not_nil p)), DecimalPos.Unsigned.of_to.
    reflexivity.
  - change (trimStart (45%N :: digits (Pos.to_uint p)))
      with (45%N :: digits (Pos.to_uint p)).
    change (stripSign (45%N :: digits (Pos.to_uint p)))
      with (-1, digits (Pos.to_uint p)).
    cbv beta iota. rewrite digits_stripPrefix.
    rewrite (parseDigits_start _ (to_uint_not_nil p)), DecimalPos.Unsigned.of_to.
    reflexivity.
Qed.

End ParseInt.

(* ===================================================================== *)
(** ** The resource action                                                *)
(* ===================================================================== *)

Section Action.

Import Resources.

Variable db : Database.

(** What a POST with readable form data does: one run of the paginated
    query with the two parsed bounds, and a response made from its
    outcome. *)
Lemma action_post request fd :
  method request = "POST" ->
  formData request = Normal fd ->
  let params := Some [toString (limit fd); toString (offset fd)] in
  action db request =
    match run db organizationsQuery params with
    | Normal (QueryOk d) =>
        (Normal (Response_json (JQuery (QueryOk d)) 200),
         [QueryRun organizationsQuery params])
    | Normal (QueryError m) =>
        (Normal (Response_json (JQuery (QueryError m)) 200),
         [QueryRun organizationsQuery params])
    | Throw e =>
        (Normal (Response_json (JError "Failed to fetch organizations") 500),
         [QueryRun organizationsQuery params;
          ConsoleError "Error fetching organizations:" e])
    end.
Proof.
  intros Hm Hfd params. unfold action. rewrite Hm, Hfd.
  cbn [String.eqb Ascii.eqb Bool.eqb negb await bind executeQuery].
  fold params.
  destruct (run db organizationsQuery params) as [[d | m] | e]; reflexivity.
Qed.

Lemma action_post_queries request fd :
  method request = "POST" ->
  formData request = Normal fd ->
  queriesRun (snd (action db request)) =
    [(organizationsQuery, Some [toString (limit fd); toString (offset fd)])].
Proof.
  intros Hm Hfd. rewrite (action_post _ _ Hm Hfd). cbv zeta.
  destruct (run db organizationsQuery _) as [[d | m] | e]; reflexivity.
Qed.

(** C5: for every request whose method is not POST, the action returns
    status 405 with the body [{error: "Method not allowed"}], and the trace
    of the call is empty: no query was run (nor anything logged). *)
Theorem action_method_not_allowed request :
  method request <> "POST" ->
  action db request =
    (Normal {| status := 405; json := JError "Method not allowed" |}, [])
  /\ queriesRun (snd (action db request)) = [].
Proof.
  intros Hm. unfold action.
  destruct (String.eqb_spec (method request) "POST") as [E | _]; [contradiction |].
  split; reflexivity.
Qed.





(** C10: the action does not validate the range of what it parsed.  For
    every POST request with readable form data, a [limit] that parses to a
    nonzero safe integer n, negative or not, is used as it is and passed to
    the paginated query as the text of n, and likewise an [offset] that
    parses to a nonzero safe integer m.  (Beyond the safe integers the
    number parsed is a rounded double, which the integer model leaves
    out.) *)
Theorem action_forwards_parsed request fd :
  method request = "POST" ->
  formData request = Normal fd ->
  (forall n,
     parseInt (ToString (FormData_get fd (str "limit"))) = Num n ->
     n <> 0 -> isSafeInteger n = true ->
     limit fd = n /\
     exists o,
       queriesRun (snd (action db request)) =
         [(organizationsQuery, Some [toString n; o])]) /\
  (forall m,
     parseInt (ToString (FormData_get fd (str "offset"))) = Num m ->
     m <> 0 -> isSafeInteger m = true ->
     offset fd = m /\
     exists l,
       queriesRun (snd (action db request)) =
         [(organizationsQuery, Some [l; toString m])]).
Proof.
  intros Hm Hfd. split.
  - intros n Hn Hz _.
    assert (Hl : limit fd = n).
    { unfold limit. rewrite Hn. cbn [or_default].
      destruct (Z.eqb_spec n 0); [contradiction | reflexivity]. }
    split; [exact Hl |]. eexists.
    now rewrite (action_post_queries _ _ Hm Hfd), Hl.
  - intros m Hn Hz _.
    assert (Ho : offset fd = m).
    { unfold offset. rewrite Hn. cbn [or_default].
      destruct (Z.eqb_spec m 0); [contradiction | reflexivity]. }
    split; [exact Ho |]. eexists.
    now rewrite (action_post_queries _ _ Hm Hfd), Ho.
Qed.

End Action.

(** Witness of C5: a GET request. *)
Lemma action_method_not_allowed_witness :
  Resources.method getRequest <> "POST" /\
  Resources.action sampleDb getRequest =
    (Normal {| Resources.status := 405;
               Resources.json := JError "Method not allowed" |}, []).
Proof.
  assert (H : Resources.method getRequest <> "POST") by (simpl; discriminate).
  split; [exact H |].
  exact (proj1 (action_method_not_allowed sampleDb getRequest H)).
Defined.




(** Witness of C10: a negative limit and a negative offset go through. *)
Lemma action_forwards_parsed_witness :
  Resources.limit [(str "limit", Resources.EntryString (str "-5"));
                   (str "offset", Resources.EntryString (str "-20"))] = -5 /\
  exists o,
    queriesRun (snd (Resources.action sampleDb
                       (post [(str "limit", Resources.EntryString (str "-5"));
                              (str "offset", Resources.EntryString (str "-20"))]))) =
      [(organizationsQuery, Some [str "-5"; o])].
Proof.
  destruct (action_forwards_parsed sampleDb
              (post [(str "limit", Resources.EntryString (str "-5"));
                     (str "offset", Resources.EntryString (str "-20"))])
              _ eq_refl eq_refl) as [Hl _].
  refine (Hl (-5) eq_refl _ eq_refl). lia.
Defined.

(* ===================================================================== *)
(** ** The table renderer                                                 *)
(* ===================================================================== *)

Section TableRenderer.

Import Table.

Lemma Qceiling_tenth T : Qceiling (inject_Z T / inject_Z 10) = - (- T / 10).
Proof.
  unfold Qceiling, Qfloor, Qdiv, Qmult, Qinv, Qopp, inject_Z. cbn [Qnum Qden].
  now rewrite Z.mul_1_r.
Qed.

(** C1: for every total count T >= 0, the total pages the table shows are
    the ceiling of T/10, that is the least integer n with T <= 10 n, and
    they are 0 when T = 0. *)
Theorem totalPages_ceiling (props : Props) :
  0 <= organizationsCount props ->
  let T := organizationsCount props in
  let n := snd (pageOf (OrganizationsTable props)) in
  n = totalPages T /\
  n = Qceiling (inject_Z T / inject_Z 10) /\
  (T <= 10 * n /\ 10 * (n - 1) < T) /\
  (T = 0 -> n = 0).
Proof.
  intros HT T n. subst n. cbn [OrganizationsTable pageOf snd]. fold T.
  unfold totalPages, ITEMS_PER_PAGE. rewrite Qceiling_tenth.
  destruct (Z.gtb_spec T 0) as [Hpos | Hzero].
  - repeat split; try lia; Z.div_mod_to_equations; lia.
  - assert (T = 0) as -> by lia. repeat split; reflexivity || lia.
Qed.

(** C4 as amended: "Previous" is disabled exactly when the current page is
    1 or a page-change request is in flight, and "Next" exactly when the
    current page is the total page count or a request is in flight.  In
    particular, with no request in flight the two buttons are disabled
    exactly at page 1 and at the last page. *)
Theorem buttons_disabled (props : Props) :
  let view := OrganizationsTable props in
  (disabled (previous view) = true <->
     currentPage props = 1 \/ isLoading props = true) /\
  (disabled (next view) = true <->
     currentPage props = totalPages (organizationsCount props)
     \/ isLoading props = true).
Proof.
  cbn [OrganizationsTable previous next disabled].
  rewrite !orb_true_iff, !Z.eqb_eq. split; reflexivity.
Qed.

End TableRenderer.

(** Witness of C1: 25 records make 3 pages. *)
Lemma totalPages_ceiling_witness :
  snd (Table.pageOf (Table.OrganizationsTable
         {| Table.organizations := [acme]; Table.organizationsCount := 25;
            Table.isLoading := false; Table.currentPage := 1 |})) = 3.
Proof.
  refine (eq_trans (proj1 (totalPages_ceiling
            {| Table.organizations := [acme]; Table.organizationsCount := 25;
               Table.isLoading := false; Table.currentPage := 1 |} _)) _).
  - simpl. lia.
  - reflexivity.
Defined.

(** Counterexample to C4 as stated: on page 2 of 3, while a request is in
    flight, both buttons are disabled. *)
Lemma buttons_disabled_while_loading :
  let props := {| Table.organizations := [acme]; Table.organizationsCount := 25;
                  Table.isLoading := true; Table.currentPage := 2 |} in
  let view := Table.OrganizationsTable props in
  Table.disabled (Table.previous view) = true /\
  Table.currentPage props <> 1 /\
  Table.disabled (Table.next view) = true /\
  Table.currentPage props <> Table.totalPages (Table.organizationsCount props).
Proof.
  cbv zeta. repeat split; try reflexivity; vm_compute; discriminate.
Qed.

(* ===================================================================== *)
(** ** The loader                                                         *)
(* ===================================================================== *)

Section Loader.

Variable db : Database.
Variable race : Race.

Let organizations := run db organizationsQuery firstPage.
Let organizationsCount := run db organizationsCountQuery None.

Lemma loader_throws :
  throws organizations \/ throws organizationsCount ->
  exists e,
    firstRejection db race = Some e /\
    loader db race =
      (Normal {[ "error" := LString (messageOf e) ]},
       [QueryRun organizationsQuery firstPage;
        QueryRun organizationsCountQuery None;
        ConsoleError "Error in organizations loader:" e]).
Proof.
  unfold firstRejection, loader, executeQuery, Promise_all.
  change (Some [toString ITEMS_PER_PAGE; str "0"]) with firstPage.
  fold organizations organizationsCount.
  destruct organizations as [o | e1], organizationsCount as [c | e2];
    cbn [throws]; intros [[] | []]; eexists; split; reflexivity.
Qed.

Lemma loader_returns o c :
  organizations = Normal o ->
  organizationsCount = Normal c ->
  loader db race =
    (Normal {[ "organizations" := LOrganizations o;
               "organizationsCount" := LCount c ]},
     [QueryRun organizationsQuery firstPage;
      QueryRun organizationsCountQuery None]).
Proof.
  unfold loader, executeQuery, Promise_all.
  change (Some [toString ITEMS_PER_PAGE; str "0"]) with firstPage.
  fold organizations organizationsCount.
  intros -> ->. reflexivity.
Qed.

(** C7: if either initial query throws, the loader returns an object whose
    only property is [error], a message: it has no [organizations] and no
    [organizationsCount] property.  If neither throws, it returns the object
    with exactly the two query results. *)
Theorem loader_result :
  (throws organizations \/ throws organizationsCount ->
   exists message result,
     fst (loader db race) = Normal result /\
     result = {[ "error" := LString message ]} /\
     result !! "organizations" = None /\
     result !! "organizationsCount" = None /\
     dom result = {[ "error" ]}) /\
  (forall o c,
     organizations = Normal o ->
     organizationsCount = Normal c ->
     exists result,
       fst (loader db race) = Normal result /\
       result = {[ "organizations" := LOrganizations o;
                   "organizationsCount" := LCount c ]} /\
       result !! "organizations" = Some (LOrganizations o) /\
       result !! "organizationsCount" = Some (LCount c) /\
       result !! "error" = None).
Proof.
  split.
  - intros H. destruct (loader_throws H) as (e & _ & E).
    exists (messageOf e), {[ "error" := LString (messageOf e) ]}.
    rewrite E. split; [reflexivity |]. split; [reflexivity |].
    split; [now apply lookup_singleton_ne |].
    split; [now apply lookup_singleton_ne | apply dom_singleton_L].
  - intros o c Ho Hc. eexists. rewrite (loader_returns _ _ Ho Hc).
    split; [reflexivity |]. split; [reflexivity |].
    split; [apply lookup_insert_eq |].
    split.
    + rewrite lookup_insert_ne by done. apply lookup_singleton_eq.
    + rewrite lookup_insert_ne by done. now apply lookup_singleton_ne.
Qed.

End Loader.

(** Witness of C7: the organizations query throws. *)
Lemma loader_result_witness :
  exists message,
    fst (loader throwingDb FirstSettlesFirst) =
      Normal {[ "error" := LString message ]}.
Proof.
  destruct (proj1 (loader_result throwingDb FirstSettlesFirst) (or_introl I))
    as (message & result & E & -> & _).
  exists message. exact E.
Defined.

(* ===================================================================== *)
(** ** The page component                                                 *)
(* ===================================================================== *)

Section Page.

(** [handlePageChange] and the arrival of a response leave the loader data
    alone; a revalidation replaces it. *)
Lemma step_loaderData s e :
  isRevalidation e = false -> loaderData (step s e) = loaderData s.
Proof. destruct e; [reflexivity | reflexivity | discriminate]. Qed.

Lemma run_events_latestLoad es :
  forall s, loaderData (run_events s es) = latestLoad (loaderData s) es.
Proof.
  induction es as [| e es IH]; intros s; [reflexivity |].
  cbn [run_events fold_left]. fold (run_events (step s e) es). rewrite IH.
  destruct e as [p | b | db race]; cbn [latestLoad step]; try reflexivity.
  destruct (fst (loader db race)); reflexivity.
Qed.

Lemma latestLoad_same data es :
  existsb isRevalidation es = false -> latestLoad data es = data.
Proof.
  induction es as [| [p | b | db race] es IH]; cbn [existsb latestLoad isRevalidation orb];
    auto; discriminate.
Qed.

Lemma run_events_app s es es' :
  run_events s (es ++ es') = run_events (run_events s es) es'.
Proof. apply fold_left_app. Qed.

(** The total count is a function of the loader data alone. *)
Lemma organizationsCount_loaderData s s' :
  loaderData s = loaderData s' -> organizationsCount s = organizationsCount s'.
Proof. unfold organizationsCount. now intros ->. Qed.

(** The markup of a page whose loader data is a success object. *)
Lemma page_of_success s o c :
  loaderData s !! "error" = None ->
  loaderData s !! "organizations" = Some (LOrganizations o) ->
  organizationsCount s = Some c ->
  OrganizationsPage s =
    Some (Container "Organizations"
            (WithErrorHandling
               (default (JQuery o) (Fetcher.data (fetcher s)))
               (fun rows =>
                  Table.OrganizationsTable
                    {| Table.organizations := rows;
                       Table.organizationsCount := c;
                       Table.isLoading :=
                         Fetcher.state_eqb (Fetcher.state (fetcher s))
                           Fetcher.submitting;
                       Table.currentPage := currentPage s |}))).
Proof.
  intros He Ho Hc. unfold OrganizationsPage. rewrite He, Ho, Hc.
  destruct (Fetcher.data (fetcher s)); reflexivity.
Qed.

(** Every table the page renders shows the total pages of the page's total
    count. *)
Lemma page_table_totalPages s heading table :
  OrganizationsPage s = Some (Container heading (Renders table)) ->
  exists c,
    organizationsCount s = Some c /\
    snd (Table.pageOf table) = Table.totalPages c.
Proof.
  unfold OrganizationsPage.
  destruct (loaderData s !! "error") as [[| |] |]; try discriminate.
  destruct (loaderData s !! "organizations") as [[o | |] |]; try discriminate.
  destruct (organizationsCount s) as [c |]; try discriminate.
  intros H. exists c. split; [reflexivity |].
  injection H as _ H.
  destruct (Fetcher.data (fetcher s)) as [[m | [rows | m]] |];
    try destruct o as [rows | m]; cbn in H; try discriminate;
    injection H as <-; reflexivity.
Qed.

(** C2: for every target page p, [handlePageChange] shows page p at once
    and submits, by POST to /resources/organizations, the form fields
    limit = "10" and offset = the text of (p - 1) * 10, which reads back as
    that number; page 1 gives offset "0" and page 3 gives offset "20". *)
Theorem handlePageChange_submits (s : PageState) :
  (forall p,
     currentPage (handlePageChange p s) = p /\
     Fetcher.submissions (fetcher (handlePageChange p s)) =
       Fetcher.submissions (fetcher s) ++
       [{| Fetcher.target := [(str "limit", str "10");
                              (str "offset", toString ((p - 1) * 10))];
           Fetcher.options := {| Fetcher.method := "post";
                                 Fetcher.action := "/resources/organizations" |} |}]
     /\ parseInt (str "10") = Num 10
     /\ parseInt (toString ((p - 1) * 10)) = Num ((p - 1) * 10)) /\
  last (Fetcher.submissions (fetcher (handlePageChange 1 s))) =
    Some {| Fetcher.target := [(str "limit", str "10"); (str "offset", str "0")];
            Fetcher.options := {| Fetcher.method := "post";
                                  Fetcher.action := "/resources/organizations" |} |} /\
  last (Fetcher.submissions (fetcher (handlePageChange 3 s))) =
    Some {| Fetcher.target := [(str "limit", str "10"); (str "offset", str "20")];
            Fetcher.options := {| Fetcher.method := "post";
                                  Fetcher.action := "/resources/organizations" |} |}.
Proof.
  split; [| split].
  - intros p. split; [reflexivity |]. split; [reflexivity |].
    split; [reflexivity | apply parseInt_toString].
  - cbn [handlePageChange fetcher Fetcher.submit Fetcher.submissions].
    now rewrite last_snoc.
  - cbn [handlePageChange fetcher Fetcher.submit Fetcher.submissions].
    now rewrite last_snoc.
Qed.

(** The request made from that submission reaches the action as a POST, and
    the action runs the paginated query with exactly those two texts. *)
Lemma page_change_reaches_query db p s sub :
  last (Fetcher.submissions (fetcher (handlePageChange p s))) = Some sub ->
  queriesRun (snd (Resources.action db (request_of sub))) =
    [(organizationsQuery, Some [str "10"; toString ((p - 1) * 10)])].
Proof.
  cbn [handlePageChange fetcher Fetcher.submit Fetcher.submissions].
  rewrite last_snoc. intros [= <-].
  match goal with
  | |- context [Resources.action db ?r] =>
      rewrite (action_post_queries db r _ eq_refl eq_refl)
  end.
  unfold Resources.limit, Resources.offset.
  change (Resources.ToString (Resources.FormData_get _ (str "limit")))
    with (str "10").
  change (Resources.ToString (Resources.FormData_get _ (str "offset")))
    with (toString ((p - 1) * ITEMS_PER_PAGE)).
  rewrite parseInt_toString. cbn [or_default].
  unfold ITEMS_PER_PAGE.
  destruct (Z.eqb_spec ((p - 1) * 10) 0) as [-> | _]; reflexivity.
Qed.

(** C8 as amended: the total count is read from the loader data alone,
    never from the response to a page change.  A call of [handlePageChange]
    and the arrival of its response leave the loader data and the count as
    they were, so that over page changes and responses only the count stays
    that of the initial load and a page change answered with rows renders
    those rows under the unchanged count.  A revalidation replaces the
    loader data, and from then on the count, and the total pages of every
    table rendered, are those of the latest load. *)
Theorem total_count_follows_loader_data (s : PageState) (es : list PageEvent) :
  (forall page,
     organizationsCount (handlePageChange page s) = organizationsCount s) /\
  (forall body,
     organizationsCount (step s (Settled body)) = organizationsCount s) /\
  (existsb isRevalidation es = false ->
     loaderData (run_events s es) = loaderData s /\
     organizationsCount (run_events s es) = organizationsCount s) /\
  loaderData (run_events s es) = latestLoad (loaderData s) es /\
  organizationsCount (run_events s es) =
    organizationsCount (initial (latestLoad (loaderData s) es)) /\
  (forall heading table,
     OrganizationsPage (run_events s es) = Some (Container heading (Renders table)) ->
     exists c,
       organizationsCount (initial (latestLoad (loaderData s) es)) = Some c /\
       snd (Table.pageOf table) = Table.totalPages c) /\
  (forall o c page rows,
     loaderData (run_events s es) !! "error" = None ->
     loaderData (run_events s es) !! "organizations" = Some (LOrganizations o) ->
     organizationsCount (run_events s es) = Some c ->
     OrganizationsPage
       (run_events s (es ++ [PageChange page; Settled (JQuery (QueryOk rows))])) =
       Some (Container "Organizations"
               (Renders (Table.OrganizationsTable
                           {| Table.organizations := rows;
                              Table.organizationsCount := c;
                              Table.isLoading := false;
                              Table.currentPage := page |})))).
Proof.
  assert (Hld : loaderData (run_events s es) = latestLoad (loaderData s) es)
    by apply run_events_latestLoad.
  assert (Hc : organizationsCount (run_events s es) =
               organizationsCount (initial (latestLoad (loaderData s) es)))
    by now apply organizationsCount_loaderData.
  split; [reflexivity |]. split; [reflexivity |]. split.
  { intros Hn. rewrite (latestLoad_same _ _ Hn) in Hld.
    split; [exact Hld | now apply organizationsCount_loaderData]. }
  split; [exact Hld |]. split; [exact Hc |]. split.
  - intros heading table H.
    destruct (page_table_totalPages _ _ _ H) as (c & Hc' & Ht).
    exists c. split; [now rewrite <- Hc | exact Ht].
  - intros o c page rows He Ho Hcount.
    rewrite run_events_app.
    set (s1 := run_events s es) in *.
    exact (page_of_success
             (run_events s1 [PageChange page; Settled (JQuery (QueryOk rows))])
             o c He Ho Hcount).
Qed.

End Page.

(** Witness of C8 as amended: after going to page 2 and receiving its rows,
    with no revalidation, the page built on the sample load still counts 25
    records. *)
Lemma total_count_follows_loader_data_witness :
  organizationsCount
    (run_events (initial sampleData)
       [PageChange 2; Settled (JQuery (QueryOk []))]) = Some 25.
Proof.
  exact (eq_trans
           (proj2 (proj1 (proj2 (proj2 (total_count_follows_loader_data
              (initial sampleData)
              [PageChange 2; Settled (JQuery (QueryOk []))]))) eq_refl))
           eq_refl).
Defined.

(** Counterexample to C8 as stated: the sample load counts 25 records; the
    user goes to page 2, the rows arrive, and the framework revalidates
    against a table that has grown to 47.  The count shown is then 47, and
    the table reads page 2 of 5. *)
Lemma total_count_recomputed :
  fst (loader sampleDb FirstSettlesFirst) = Normal sampleData /\
  organizationsCount (initial sampleData) = Some 25 /\
  organizationsCount
    (run_events (initial sampleData)
       [PageChange 2; Settled (JQuery (QueryOk [acme]));
        Revalidated grownDb FirstSettlesFirst]) = Some 47 /\
  OrganizationsPage
    (run_events (initial sampleData)
       [PageChange 2; Settled (JQuery (QueryOk [acme]));
        Revalidated grownDb FirstSettlesFirst]) =
    Some (Container "Organizations"
            (Renders (Table.OrganizationsTable
                        {| Table.organizations := [acme];
                           Table.organizationsCount := 47;
                           Table.isLoading := false;
                           Table.currentPage := 2 |}))) /\
  Table.totalPages 47 = 5.
Proof. repeat split. Qed.

(* ===================================================================== *)
(** ** The initial load, from the queries to the page                     *)
(* ===================================================================== *)

Section InitialLoad.

Variable db : Database.
Variable race : Race.

Let organizations := run db organizationsQuery firstPage.
Let organizationsCount := run db organizationsCountQuery None.

(** C3 as amended: the loader always returns, and the first render of the
    page is one of three.  If either initial query throws, the whole page
    is a single error message.  If neither throws and the organizations
    query returned an error result, the page shows that error in place of
    the table.  If neither throws and the organizations query returned
    rows, the page renders the table of those rows whatever the count query
    returned: an error result of the count query is not shown and counts
    as a total of 0. *)
Theorem initial_page_outcomes :
  exists ld,
    fst (loader db race) = Normal ld /\
    (throws organizations \/ throws organizationsCount ->
       exists e,
         firstRejection db race = Some e /\
         OrganizationsPage (initial ld) =
           Some (ErrorOnly (ShowsError (messageOf e)))) /\
    (forall message c,
       organizations = Normal (QueryError message) ->
       organizationsCount = Normal c ->
       OrganizationsPage (initial ld) =
         Some (Container "Organizations" (ShowsError message))) /\
    (forall rows c,
       organizations = Normal (QueryOk rows) ->
       organizationsCount = Normal c ->
       OrganizationsPage (initial ld) =
         Some (Container "Organizations"
                 (Renders (Table.OrganizationsTable
                             {| Table.organizations := rows;
                                Table.organizationsCount := orZero (firstTotal c);
                                Table.isLoading := false;
                                Table.currentPage := 1 |})))
       /\ (isError c = true -> orZero (firstTotal c) = 0)).
Proof.
  destruct organizations as [o | e1] eqn:Ho, organizationsCount as [c | e2] eqn:Hc.
  1: { exists {[ "organizations" := LOrganizations o;
                 "organizationsCount" := LCount c ]}.
       split; [now rewrite (loader_returns db race o c Ho Hc) |].
       split; [intros [[] | []] |].
       split.
       - intros message c' [= ->] [= <-]. reflexivity.
       - intros rows c' [= ->] [= <-]. split; [reflexivity |].
         destruct c; [discriminate | reflexivity]. }
  all: (assert (Ht : throws organizations \/ throws organizationsCount)
          by (subst organizations organizationsCount;
              first [ left; rewrite Ho; exact I | right; rewrite Hc; exact I ]));
       destruct (loader_throws db race Ht) as (e & He & El);
       exists {[ "error" := LString (messageOf e) ]};
       (split; [now rewrite El |]);
       (split; [intros _; exists e; split; [exact He | reflexivity] |]);
       split; intros; discriminate.
Qed.

End InitialLoad.

(** Witness of C3 as amended: the count query returns an error result and
    the organizations query a row. *)
Lemma initial_page_outcomes_witness :
  exists ld,
    fst (loader countErrorDb FirstSettlesFirst) = Normal ld /\
    OrganizationsPage (initial ld) =
      Some (Container "Organizations"
              (Renders (Table.OrganizationsTable
                          {| Table.organizations := [acme];
                             Table.organizationsCount := 0;
                             Table.isLoading := false;
                             Table.currentPage := 1 |}))).
Proof.
  destruct (initial_page_outcomes countErrorDb FirstSettlesFirst)
    as (ld & El & _ & _ & Hrows).
  exists ld. split; [exact El |].
  exact (proj1 (Hrows [acme] (QueryError "relation does not exist") eq_refl eq_refl)).
Defined.

(** Counterexample to C3 as stated: with a count query that returns an
    error result and an organizations query that returns a row, the two
    queries have not both succeeded, and yet the page is no error message:
    it renders the row, with a total of 0. *)
Lemma partial_result_rendered :
  ~ no_partial_result countErrorDb FirstSettlesFirst.
Proof.
  intros H.
  destruct (H {[ "organizations" := LOrganizations (QueryOk [acme]);
                 "organizationsCount" :=
                   LCount (QueryError "relation does not exist") ]} eq_refl)
    as [[(rows & counts & _ & Hc) _] | (message & [E | E])].
  - discriminate Hc.
  - vm_compute in E. discriminate E.
  - vm_compute in E. discriminate E.
Qed.

(* ===================================================================== *)
(** ** The resource action: failures, pass-through, form data             *)
(* ===================================================================== *)

Section ActionBehaviour.

Import Resources.

Variable db : Database.

Lemma jsstring_eqb_eq a b : jsstring_eqb a b = true <-> a = b.
Proof.
  revert b. induction a as [| x a IH]; intros [| y b]; cbn [jsstring_eqb];
    try (split; [discriminate | congruence]); [split; reflexivity |].
  rewrite andb_true_iff, N.eqb_eq, IH. split; [intros [-> ->] | intros [= -> ->]]; auto.
Qed.

Lemma FormData_get_other k v fd name :
  k <> name -> FormData_get ((k, v) :: fd) name = FormData_get fd name.
Proof.
  intros Hk. cbn [FormData_get].
  destruct (jsstring_eqb k name) eqn:E; [| reflexivity].
  apply jsstring_eqb_eq in E. contradiction.
Qed.

Lemma FormData_get_app fd fd' name v :
  FormData_get fd name = Some v -> FormData_get (fd ++ fd') name = Some v.
Proof.
  induction fd as [| [k w] fd IH]; cbn [FormData_get app]; [discriminate |].
  destruct (jsstring_eqb k name); auto.
Qed.

(** The action reads the form data through the two fields only. *)
Lemma action_form_data fd fd' :
  FormData_get fd (str "limit") = FormData_get fd' (str "limit") ->
  FormData_get fd (str "offset") = FormData_get fd' (str "offset") ->
  action db (post fd) = action db (post fd').
Proof.
  intros Hl Ho.
  rewrite (action_post db (post fd) fd eq_refl eq_refl),
          (action_post db (post fd') fd' eq_refl eq_refl).
  unfold limit, offset. now rewrite Hl, Ho.
Qed.

(** X1: the action never throws: whatever the request and the database do,
    it returns a response, whose status is 200, 405 or 500, and it has run
    the paginated query at most once and no other query. *)
Theorem action_always_responds request :
  exists response,
    fst (action db request) = Normal response /\
    (status response = 200 \/ status response = 405 \/ status response = 500) /\
    (queriesRun (snd (action db request)) = [] \/
     exists params,
       queriesRun (snd (action db request)) = [(organizationsQuery, params)]).
Proof.
  unfold action.
  destruct (negb (String.eqb (method request) "POST")).
  - eexists. split; [reflexivity |]. cbn. auto.
  - destruct (formData request) as [fd | e]; cbn [await bind try_catch executeQuery].
    + destruct (run db organizationsQuery _) as [[d | m] | e];
        eexists; (split; [reflexivity |]); cbn; eauto 6.
    + eexists. split; [reflexivity |]. cbn. auto.
Qed.



(** X4: the action reads nothing of the form data but the first [limit] and
    the first [offset] entry: an entry of any other name, wherever it is
    put in front, and any entries added after a form that has both fields,
    leave the whole outcome of the action unchanged. *)
Theorem action_ignores_other_entries fd :
  (forall k v,
     k <> str "limit" -> k <> str "offset" ->
     action db (post ((k, v) :: fd)) = action db (post fd)) /\
  (forall fd' l o,
     FormData_get fd (str "limit") = Some l ->
     FormData_get fd (str "offset") = Some o ->
     action db (post (fd ++ fd')) = action db (post fd)).
Proof.
  split.
  - intros k v Hl Ho. apply action_form_data; now apply FormData_get_other.
  - intros fd' l o Hl Ho. apply action_form_data.
    + now rewrite Hl, (FormData_get_app _ fd' _ _ Hl).
    + now rewrite Ho, (FormData_get_app _ fd' _ _ Ho).
Qed.

(** X5: bounds sent as the decimal text of safe integers come out of the
    action as the same texts: for every safe integer limit n other than 0
    and every safe integer offset m, negative ones included, the query is
    run with exactly the texts of n and m. *)
Theorem action_decimal_round_trip n m :
  n <> 0 ->
  isSafeInteger n = true ->
  isSafeInteger m = true ->
  queriesRun (snd (action db
                     (post [(str "limit", EntryString (toString n));
                            (str "offset", EntryString (toString m))]))) =
    [(organizationsQuery, Some [toString n; toString m])].
Proof.
  intros Hn _ _.
  rewrite (action_post_queries db (post _) _ eq_refl eq_refl).
  unfold limit, offset.
  change (ToString (FormData_get _ (str "limit"))) with (toString n).
  change (ToString (FormData_get _ (str "offset"))) with (toString m).
  rewrite !parseInt_toString. cbn [or_default].
  destruct (Z.eqb_spec n 0); [contradiction |].
  destruct (Z.eqb_spec m 0) as [-> | _]; reflexivity.
Qed.

End ActionBehaviour.



(** Witness of X4: a field [page] in front of the form. *)
Lemma action_ignores_other_entries_witness :
  Resources.action sampleDb
    (post [(str "page", Resources.EntryString (str "7"));
           (str "limit", Resources.EntryString (str "5"))]) =
  Resources.action sampleDb (post [(str "limit", Resources.EntryString (str "5"))]).
Proof.
  refine (proj1 (action_ignores_other_entries sampleDb
                   [(str "limit", Resources.EntryString (str "5"))])
            (str "page") (Resources.EntryString (str "7")) _ _);
    vm_compute; discriminate.
Defined.

(** Witness of X5: limit -3, offset 0. *)
Lemma action_decimal_round_trip_witness :
  queriesRun (snd (Resources.action sampleDb
                     (post [(str "limit", Resources.EntryString (str "-3"));
                            (str "offset", Resources.EntryString (str "0"))]))) =
    [(organizationsQuery, Some [str "-3"; str "0"])].
Proof.
  refine (action_decimal_round_trip sampleDb (-3) 0 _ eq_refl eq_refl). lia.
Defined.

(* ===================================================================== *)
(** ** The loader: what it always does                                    *)
(* ===================================================================== *)

Section LoaderBehaviour.

Variable db : Database.
Variable race : Race.

(** X6: the loader never throws, and it always runs both queries, the
    organizations query for the first ten rows and then the count query,
    also when the first of them throws.  It writes to the console exactly
    when a query threw, and then once. *)
Theorem loader_always_runs_both :
  exists ld,
    fst (loader db race) = Normal ld /\
    queriesRun (snd (loader db race)) =
      [(organizationsQuery, firstPage); (organizationsCountQuery, None)] /\
    consoleErrors (snd (loader db race)) =
      match firstRejection db race with
      | Some e => [("Error in organizations loader:", e)]
      | None => []
      end.
Proof.
  unfold firstRejection.
  destruct (run db organizationsQuery firstPage) as [o | e1] eqn:Ho,
           (run db organizationsCountQuery None) as [c | e2] eqn:Hc.
  1: { rewrite (loader_returns db race o c Ho Hc). eexists.
       repeat split. }
  all: (assert (Ht : throws (run db organizationsQuery firstPage) \/
                     throws (run db organizationsCountQuery None))
          by (first [ left; rewrite Ho; exact I | right; rewrite Hc; exact I ]));
       destruct (loader_throws db race Ht) as (e & He & El);
       unfold firstRejection in He; rewrite Ho, Hc in He;
       injection He as <-; rewrite El; eexists; repeat split.
Qed.

(** X7: the message of the loader's error object.  When both queries throw
    it is taken from the one that settled first; a thrown [Error] gives its
    own message, and anything else the fixed text "Failed to load
    organizations data". *)
Theorem loader_error_message e1 e2 :
  run db organizationsQuery firstPage = Throw e1 ->
  run db organizationsCountQuery None = Throw e2 ->
  let first := match race with
               | FirstSettlesFirst => e1
               | SecondSettlesFirst => e2
               end in
  fst (loader db race) =
    Normal {[ "error" :=
                LString (match first with
                         | ThrownError message => message
                         | ThrownOther => "Failed to load organizations data"
                         end) ]}.
Proof.
  intros H1 H2 first.
  assert (Ht : throws (run db organizationsQuery firstPage) \/
               throws (run db organizationsCountQuery None))
    by (left; rewrite H1; exact I).
  destruct (loader_throws db race Ht) as (e & He & El).
  unfold firstRejection in He. rewrite H1, H2 in He. injection He as <-.
  rewrite El. reflexivity.
Qed.

End LoaderBehaviour.

(** Witness of X7: the count query, which threw no [Error], settled first. *)
Lemma loader_error_message_witness :
  fst (loader downDb SecondSettlesFirst) =
    Normal {[ "error" := LString "Failed to load organizations data" ]}.
Proof.
  exact (loader_error_message downDb SecondSettlesFirst
           (ThrownError "connection refused") ThrownOther eq_refl eq_refl).
Defined.

(* ===================================================================== *)
(** ** The table renderer: body, page count, buttons                      *)
(* ===================================================================== *)

Section TableBehaviour.

Import Table.

Lemma totalPages_div T : totalPages T = if T >? 0 then (T + 9) / 10 else 0.
Proof.
  unfold totalPages, ITEMS_PER_PAGE. rewrite Qceiling_tenth.
  destruct (T >? 0); [| reflexivity]. Z.div_mod_to_equations. lia.
Qed.

(** X8: the body of the table is in exactly one of three states.  It is
    the loading placeholder exactly while loading; the "No organizations
    found" placeholder exactly when not loading and there are no rows; and
    otherwise one row per organization, in order, keyed by the
    organization's id, each with eight cells. *)
Theorem table_body_states (props : Props) :
  let b := body (OrganizationsTable props) in
  (b = LoadingRow <-> isLoading props = true) /\
  (b = EmptyRow <-> isLoading props = false /\ organizations props = []) /\
  (forall rows,
     b = Rows rows <->
     isLoading props = false /\ organizations props <> [] /\
     rows = map row (organizations props)) /\
  map fst (map row (organizations props)) =
    map organization_id (organizations props) /\
  Forall (fun r => length (snd r) = 8%nat) (map row (organizations props)).
Proof.
  cbn [OrganizationsTable body].
  destruct (isLoading props), (organizations props) as [| org orgs];
    cbn [length Nat.eqb];
    (split; [split; [try discriminate; auto | try discriminate; auto] |]);
    (split; [split; [try discriminate; auto
                    | intros [H1 H2]; try discriminate; try reflexivity] |]);
    (split; [intros rows; split;
             [try discriminate; intros [= <-]; repeat split; discriminate
             | intros (H1 & H2 & H3); try discriminate; try congruence] |]);
    (split; [now rewrite map_map | apply Forall_forall; intros r Hr;
             apply list_elem_of_In, in_map_iff in Hr as (o & <- & _);
             reflexivity]).
Qed.

(** X9: the page count is never negative, is 0 for every count up to 0
    (negative counts included), does not decrease when the count grows, and
    ten more records make exactly one more page. *)
Theorem totalPages_bounds (T T' : Z) :
  0 <= totalPages T /\
  (T <= 0 -> totalPages T = 0) /\
  (T <= T' -> totalPages T <= totalPages T') /\
  (0 <= T -> totalPages (T + 10) = totalPages T + 1).
Proof.
  rewrite !totalPages_div.
  destruct (Z.gtb_spec T 0), (Z.gtb_spec T' 0), (Z.gtb_spec (T + 10) 0);
    repeat split; intros; try lia; Z.div_mod_to_equations; lia.
Qed.

(** X10: "Next" has no upper bound of its own.  With no request in flight,
    on a page from 1 on, it is enabled whenever the total count is 0 or
    less (an empty list shows "Page 1 of 0" with "Next" enabled) and
    whenever the current page is past the last one, and it asks for the
    page after the current one. *)
Theorem next_enabled_past_last_page (props : Props) :
  isLoading props = false ->
  1 <= currentPage props ->
  organizationsCount props <= 0 \/
    totalPages (organizationsCount props) < currentPage props ->
  let view := OrganizationsTable props in
  disabled (next view) = false /\
  onClick (next view) = currentPage props + 1 /\
  (organizationsCount props <= 0 -> pageOf view = (currentPage props, 0)).
Proof.
  intros Hl Hp Hc. cbn [OrganizationsTable next disabled onClick pageOf].
  rewrite Hl, orb_false_r. split; [| split; [reflexivity |]].
  - apply Z.eqb_neq. destruct Hc as [Hc | Hc]; [| lia].
    rewrite totalPages_div. destruct (Z.gtb_spec (organizationsCount props) 0); lia.
  - intros Hz. rewrite totalPages_div.
    destruct (Z.gtb_spec (organizationsCount props) 0); [lia | reflexivity].
Qed.

End TableBehaviour.

(** Witness of X9: 25 records against 26. *)
Lemma totalPages_bounds_witness :
  Table.totalPages 25 <= Table.totalPages 26.
Proof.
  refine (proj1 (proj2 (proj2 (totalPages_bounds 25 26))) _). lia.
Defined.

(** Witness of X10: an empty list on page 1. *)
Lemma next_enabled_past_last_page_witness :
  Table.disabled (Table.next (Table.OrganizationsTable sampleProps)) = false.
Proof.
  refine (proj1 (next_enabled_past_last_page sampleProps eq_refl _ _)).
  - simpl. lia.
  - left. simpl. lia.
Defined.

(* ===================================================================== *)
(** ** The page component: clicks, requests, loading, failed responses    *)
(* ===================================================================== *)

Section PageBehaviour.

(** What a page that shows its container was rendered from. *)
Lemma page_container_inv s heading w :
  OrganizationsPage s = Some (Container heading w) ->
  heading = "Organizations" /\
  loaderData s !! "error" = None /\
  exists o c,
    loaderData s !! "organizations" = Some (LOrganizations o) /\
    organizationsCount s = Some c.
Proof.
  unfold OrganizationsPage.
  destruct (loaderData s !! "error") as [[| |] |]; try discriminate.
  destruct (loaderData s !! "organizations") as [[o | |] |]; try discriminate.
  destruct (organizationsCount s) as [c |]; try discriminate.
  intros [= <- _]. eauto 6.
Qed.

(** The props of a rendered table. *)
Lemma page_table_props s heading table :
  OrganizationsPage s = Some (Container heading (Renders table)) ->
  exists o rows c,
    loaderData s !! "organizations" = Some (LOrganizations o) /\
    organizationsCount s = Some c /\
    default (JQuery o) (Fetcher.data (fetcher s)) = JQuery (QueryOk rows) /\
    table = Table.OrganizationsTable
              {| Table.organizations := rows;
                 Table.organizationsCount := c;
                 Table.isLoading :=
                   Fetcher.state_eqb (Fetcher.state (fetcher s)) Fetcher.submitting;
                 Table.currentPage := currentPage s |}.
Proof.
  intros H. destruct (page_container_inv _ _ _ H) as (_ & He & o & c & Ho & Hc).
  rewrite (page_of_success s o c He Ho Hc) in H.
  exists o. destruct (default (JQuery o) (Fetcher.data (fetcher s)))
    as [m | [rows | m]]; try discriminate H.
  injection H as <-. exists rows, c. auto.
Qed.

Lemma pageChanges_app es es' :
  pageChanges (es ++ es') = (pageChanges es + pageChanges es')%nat.
Proof.
  induction es as [| [p | b | db race] es IH]; cbn [pageChanges app];
    [reflexivity | | |]; now rewrite IH.
Qed.

Lemma handlePageChange_last p s :
  last (Fetcher.submissions (fetcher (handlePageChange p s))) =
    Some (submissionFor ((p - 1) * 10)).
Proof.
  cbn [handlePageChange fetcher Fetcher.submit Fetcher.submissions].
  now rewrite last_snoc.
Qed.

(** X11: the two buttons of a rendered table drive [handlePageChange] one
    page forward and one page back: pressing "Next" on page n shows page
    n + 1 and requests offset 10 n, and pressing "Previous" shows page
    n - 1 and requests offset 10 (n - 2). *)
Theorem buttons_change_page s heading table :
  OrganizationsPage s = Some (Container heading (Renders table)) ->
  let forward := handlePageChange (Table.onClick (Table.next table)) s in
  let back := handlePageChange (Table.onClick (Table.previous table)) s in
  currentPage forward = currentPage s + 1 /\
  last (Fetcher.submissions (fetcher forward)) =
    Some (submissionFor (10 * currentPage s)) /\
  currentPage back = currentPage s - 1 /\
  last (Fetcher.submissions (fetcher back)) =
    Some (submissionFor (10 * (currentPage s - 2))).
Proof.
  intros H. destruct (page_table_props _ _ _ H) as (o & rows & c & _ & _ & _ & ->).
  cbn [Table.OrganizationsTable Table.next Table.previous Table.onClick
       Table.currentPage].
  cbv zeta. rewrite !handlePageChange_last.
  split; [reflexivity |]. split; [do 2 f_equal; lia |].
  split; [reflexivity | do 2 f_equal; lia].
Qed.

(** X12: the requests follow the page shown.  After any calls of
    [handlePageChange] and any responses on a freshly loaded page, there is
    one submission per call; with no call the page is still 1, and
    otherwise the latest submission asks for limit 10 at the offset of the
    page now shown, 10 (page - 1). *)
Theorem requests_follow_page (ld : gmap string LoaderValue) (es : list PageEvent) :
  let s := run_events (initial ld) es in
  length (Fetcher.submissions (fetcher s)) = pageChanges es /\
  match last (Fetcher.submissions (fetcher s)) with
  | None => currentPage s = 1 /\ pageChanges es = 0%nat
  | Some sub => sub = submissionFor ((currentPage s - 1) * 10)
  end.
Proof.
  induction es as [| e es IH] using rev_ind; [split; [reflexivity | now split] |].
  cbv zeta in *. rewrite run_events_app, pageChanges_app.
  set (s := run_events (initial ld) es) in *.
  destruct IH as [Hn Hl]. cbn [run_events fold_left].
  destruct e as [p | b | db race].
  - cbn [step]. rewrite handlePageChange_last.
    cbn [handlePageChange fetcher Fetcher.submit Fetcher.submissions currentPage].
    rewrite length_app, Hn. split; reflexivity.
  - cbn [step fetcher Fetcher.settle Fetcher.submissions currentPage pageChanges].
    rewrite Nat.add_0_r. split; [exact Hn |].
    destruct (last (Fetcher.submissions (fetcher s))); [exact Hl |].
    destruct Hl as [H1 H2]. now split.
  - cbn [step pageChanges]. rewrite Nat.add_0_r.
    destruct (fst (loader db race)); cbn [fetcher currentPage];
      (split; [exact Hn |]);
      (destruct (last (Fetcher.submissions (fetcher s))); [exact Hl |]);
      destruct Hl as [H1 H2]; now split.
Qed.

(** X13: while the request of a page change is in flight, a page that was
    showing its table shows the loading placeholder instead of rows, with
    both buttons disabled, under the new page number and the unchanged page
    count. *)
Theorem page_change_shows_loading s heading table p :
  OrganizationsPage s = Some (Container heading (Renders table)) ->
  exists table',
    OrganizationsPage (handlePageChange p s) =
      Some (Container heading (Renders table')) /\
    Table.body table' = Table.LoadingRow /\
    Table.disabled (Table.previous table') = true /\
    Table.disabled (Table.next table') = true /\
    Table.pageOf table' = (p, snd (Table.pageOf table)).
Proof.
  intros H. destruct (page_container_inv _ _ _ H) as (-> & He & _).
  destruct (page_table_props _ _ _ H) as (o & rows & c & Ho & Hc & Hd & ->).
  rewrite (page_of_success (handlePageChange p s) o c He Ho Hc).
  cbn [handlePageChange fetcher Fetcher.submit Fetcher.data Fetcher.state
       currentPage Fetcher.state_eqb].
  rewrite Hd. cbn [WithErrorHandling]. eexists. split; [reflexivity |].
  cbn [Table.OrganizationsTable Table.body Table.previous Table.next
       Table.disabled Table.pageOf Table.isLoading Table.currentPage
       Table.organizationsCount snd].
  rewrite !orb_true_r. auto.
Qed.

(** X14: a failed page change takes the table away.  When the response to
    the fetcher is an error object or an error result, a page that showed
    its container shows the error message in place of the table, and with
    the table its two buttons; the message stays while a further request
    is in flight. *)
Theorem failed_response_hides_table s heading w body message p :
  OrganizationsPage s = Some (Container heading w) ->
  errorOf body = Some message ->
  OrganizationsPage (step s (Settled body)) =
    Some (Container heading (ShowsError message)) /\
  OrganizationsPage (handlePageChange p (step s (Settled body))) =
    Some (Container heading (ShowsError message)).
Proof.
  intros H Hb. destruct (page_container_inv _ _ _ H) as (-> & He & o & c & Ho & Hc).
  rewrite (page_of_success (step s (Settled body)) o c He Ho Hc).
  rewrite (page_of_success (handlePageChange p (step s (Settled body))) o c He Ho Hc).
  cbn [step handlePageChange fetcher Fetcher.settle Fetcher.submit Fetcher.data
       default].
  destruct body as [m | [rows | m]]; try discriminate Hb;
    injection Hb as ->; split; reflexivity.
Qed.

(** X15: a page change reaches the query unchanged.  For every page p, in
    range or not, the submission of [handlePageChange] arrives at the action
    as a POST, and the action runs the paginated query with the texts "10"
    and 10 (p - 1), so that page 0 asks the database for offset -10. *)
Theorem page_change_round_trip db p s :
  exists sub,
    last (Fetcher.submissions (fetcher (handlePageChange p s))) = Some sub /\
    Resources.method (request_of sub) = "POST" /\
    queriesRun (snd (Resources.action db (request_of sub))) =
      [(organizationsQuery, Some [str "10"; toString ((p - 1) * 10)])].
Proof.
  exists (submissionFor ((p - 1) * 10)).
  pose proof (handlePageChange_last p s) as Hl.
  split; [exact Hl |]. split; [reflexivity |].
  exact (page_change_reaches_query db p s _ Hl).
Qed.

(** X16: the rows the component keeps in [organizationsData] are the rows
    of every table it renders: with no request in flight the body is the
    empty placeholder when they are none, and otherwise one row for each of
    them. *)
Theorem table_rows_are_organizationsData s heading table :
  OrganizationsPage s = Some (Container heading (Renders table)) ->
  exists rows,
    organizationsData s = Some rows /\
    (Fetcher.state (fetcher s) <> Fetcher.submitting ->
     Table.body table =
       match rows with
       | [] => Table.EmptyRow
       | _ :: _ => Table.Rows (map Table.row rows)
       end).
Proof.
  intros H. destruct (page_table_props _ _ _ H) as (o & rows & c & Ho & _ & Hd & ->).
  exists rows. unfold organizationsData, fetcherRows. rewrite Ho. split.
  - destruct (Fetcher.data (fetcher s)) as [[m | q] |]; cbn [default] in Hd;
      try discriminate Hd; injection Hd as ->; reflexivity.
  - intros Hs. cbn [Table.OrganizationsTable Table.body Table.isLoading
                    Table.organizations].
    destruct (Fetcher.state (fetcher s)); try contradiction;
      cbn [Fetcher.state_eqb]; destruct rows; reflexivity.
Qed.

End PageBehaviour.

(** Witness of X11: "Next" on the first page of the sample load. *)
Lemma buttons_change_page_witness :
  currentPage
    (handlePageChange
       (Table.onClick (Table.next
          (Table.OrganizationsTable
             {| Table.organizations := [acme]; Table.organizationsCount := 25;
                Table.isLoading := false; Table.currentPage := 1 |})))
       (initial sampleData)) = 1 + 1.
Proof.
  exact (proj1 (buttons_change_page (initial sampleData) "Organizations"
                  (Table.OrganizationsTable
                     {| Table.organizations := [acme];
                        Table.organizationsCount := 25;
                        Table.isLoading := false; Table.currentPage := 1 |})
                  eq_refl)).
Defined.

(** Witness of X13: page 2 requested from the sample load. *)
Lemma page_change_shows_loading_witness :
  exists table',
    OrganizationsPage (handlePageChange 2 (initial sampleData)) =
      Some (Container "Organizations" (Renders table')) /\
    Table.body table' = Table.LoadingRow.
Proof.
  destruct (page_change_shows_loading (initial sampleData) "Organizations"
              (Table.OrganizationsTable
                 {| Table.organizations := [acme];
                    Table.organizationsCount := 25;
                    Table.isLoading := false; Table.currentPage := 1 |})
              2 eq_refl) as (t & H1 & H2 & _).
  exists t. split; [exact H1 | exact H2].
Defined.

(** Witness of X14: the action's error body arrives for page 2. *)
Lemma failed_response_hides_table_witness :
  OrganizationsPage
    (step (handlePageChange 2 (initial sampleData))
          (Settled (JError "Failed to fetch organizations"))) =
    Some (Container "Organizations" (ShowsError "Failed to fetch organizations")).
Proof.
  exact (proj1 (failed_response_hides_table
                  (handlePageChange 2 (initial sampleData)) "Organizations" _
                  (JError "Failed to fetch organizations")
                  "Failed to fetch organizations" 3 eq_refl eq_refl)).
Defined.

(** Witness of X16: the first render of the sample load. *)
Lemma table_rows_are_organizationsData_witness :
  exists rows,
    organizationsData (initial sampleData) = Some rows /\
    (Fetcher.state (fetcher (initial sampleData)) <> Fetcher.submitting ->
     Table.body
       (Table.OrganizationsTable
          {| Table.organizations := [acme]; Table.organizationsCount := 25;
             Table.isLoading := false; Table.currentPage := 1 |}) =
       match rows with
       | [] => Table.EmptyRow
       | _ :: _ => Table.Rows (map Table.row rows)
       end).
Proof.
  exact (table_rows_are_organizationsData (initial sampleData) "Organizations"
           (Table.OrganizationsTable
              {| Table.organizations := [acme]; Table.organizationsCount := 25;
                 Table.isLoading := false; Table.currentPage := 1 |})
           eq_refl).
Defined.

(* ===================================================================== *)
(** ** The index route                                                    *)
(* ===================================================================== *)

Section IndexBehaviour.

Import IndexRoute.

(** X17: what the index route shows after its loader.  The loader of the
    route never throws; if a query threw, the route shows the error
    component with the loader's message and no page, and otherwise it shows
    the organizations page in its container. *)
Theorem index_after_load (db : Database) (race : Race) :
  exists ld,
    fst (IndexRoute.loader db race) = Normal ld /\
    match firstRejection db race with
    | Some e => Index (initial ld) = Some (ErrorComponent (messageOf e))
    | None =>
        exists w, Index (initial ld) = Some (Page (Container "Organizations" w))
    end.
Proof.
  unfold IndexRoute.loader, firstRejection.
  destruct (run db organizationsQuery firstPage) as [o | e1] eqn:Ho,
           (run db organizationsCountQuery None) as [c | e2] eqn:Hc.
  1: { rewrite (loader_returns db race o c Ho Hc). eexists.
       split; [reflexivity |]. unfold Index. cbn [initial loaderData].
       rewrite lookup_insert_ne by done. rewrite lookup_singleton_ne by done.
       erewrite page_of_success.
       - eexists. reflexivity.
       - cbn [initial loaderData]. rewrite lookup_insert_ne by done.
         now rewrite lookup_singleton_ne.
       - cbn [initial loaderData]. apply lookup_insert_eq.
       - unfold organizationsCount. cbn [initial loaderData].
         rewrite lookup_insert_ne by done. now rewrite lookup_singleton_eq. }
  all: (assert (Hx : throws (run db organizationsQuery firstPage) \/
                     throws (run db organizationsCountQuery None))
          by (first [ left; rewrite Ho; exact I | right; rewrite Hc; exact I ]));
       destruct (loader_throws db race Hx) as (e & Hf & Eq);
       unfold firstRejection in Hf; rewrite Ho, Hc in Hf; injection Hf as <-;
       rewrite Eq; eexists; (split; [reflexivity |]);
       unfold Index; cbn [initial loaderData];
       rewrite lookup_singleton_eq; reflexivity.
Qed.

(** The loader's answer when a query threw. *)
Lemma loader_rejected db race e :
  firstRejection db race = Some e ->
  fst (Organizations.loader db race) =
    Normal {[ "error" := LString (messageOf e) ]}.
Proof.
  intros He.
  assert (Ht : throws (run db organizationsQuery firstPage) \/
               throws (run db organizationsCountQuery None)).
  { unfold firstRejection in He.
    destruct (run db organizationsQuery firstPage);
      destruct (run db organizationsCountQuery None);
      try discriminate He; cbn [throws]; auto. }
  destruct (loader_throws db race Ht) as (e' & He' & El).
  rewrite He in He'. injection He' as <-. now rewrite El.
Qed.

(** X18: below the index route the page never takes its own error branch.
    In every state reached by page changes, responses and revalidations,
    if the route shows the page then the page is its container, never the
    bare error wrapper; and a revalidation in which a query throws makes the
    route show the error component with the loader's message. *)
Theorem index_page_is_container s (es : list PageEvent) :
  (forall v,
     Index (run_events s es) = Some (Page v) ->
     exists w,
       v = Container "Organizations" w /\
       OrganizationsPage (run_events s es) = Some v) /\
  (forall db race e,
     firstRejection db race = Some e ->
     Index (run_events s (es ++ [Revalidated db race])) =
       Some (ErrorComponent (messageOf e))).
Proof.
  split.
  - set (s1 := run_events s es). intros v. unfold Index.
    destruct (loaderData s1 !! "error") as [[| |] |] eqn:He; try discriminate.
    destruct (OrganizationsPage s1) as [v' |] eqn:Hp; [| discriminate].
    intros [= <-].
    assert (exists w, v' = Container "Organizations" w) as [w ->].
    { unfold OrganizationsPage in Hp. rewrite He in Hp.
      destruct (loaderData s1 !! "organizations") as [[o | |] |]; try discriminate.
      destruct (organizationsCount s1) as [c |]; try discriminate.
      injection Hp as <-. eauto. }
    eauto.
  - intros db race e He. rewrite run_events_app.
    cbn [run_events fold_left step]. rewrite (loader_rejected db race e He).
    unfold Index. cbn [loaderData]. now rewrite lookup_singleton_eq.
Qed.

End IndexBehaviour.

(** Witness of X18: the sample load, then a page change, its rows and a
    revalidation against the grown table. *)
Lemma index_page_is_container_witness :
  exists w,
    OrganizationsPage
      (run_events (initial sampleData)
         [PageChange 2; Settled (JQuery (QueryOk []));
          Revalidated grownDb FirstSettlesFirst]) =
      Some (Container "Organizations" w).
Proof.
  destruct (proj1 (index_page_is_container (initial sampleData)
                     [PageChange 2; Settled (JQuery (QueryOk []));
                      Revalidated grownDb FirstSettlesFirst]) _ eq_refl)
    as (w & Hv & H).
  exists w. rewrite H. now rewrite Hv.
Defined.

(* ===================================================================== *)
(** ** From the database to the screen                                    *)
(* ===================================================================== *)

Section EndToEnd.

Variable db : Database.

(** The first render of a success object. *)
Lemma first_render o c :
  OrganizationsPage
    (initial {[ "organizations" := LOrganizations o;
                "organizationsCount" := LCount c ]}) =
    Some (Container "Organizations"
            (WithErrorHandling (JQuery o)
               (fun rows =>
                  Table.OrganizationsTable
                    {| Table.organizations := rows;
                       Table.organizationsCount := orZero (firstTotal c);
                       Table.isLoading := false;
                       Table.currentPage := 1 |}))).
Proof.
  erewrite page_of_success.
  - reflexivity.
  - cbn [initial loaderData]. rewrite lookup_insert_ne by done.
    now rewrite lookup_singleton_ne.
  - cbn [initial loaderData]. apply lookup_insert_eq.
  - unfold organizationsCount. cbn [initial loaderData].
    rewrite lookup_insert_ne by done. now rewrite lookup_singleton_eq.
Qed.

(** The page over a success object, whatever the fetcher holds. *)
Lemma page_after_load o c f p :
  OrganizationsPage
    {| loaderData := {[ "organizations" := LOrganizations o;
                        "organizationsCount" := LCount c ]};
       fetcher := f;
       currentPage := p |} =
    Some (Container "Organizations"
            (WithErrorHandling (default (JQuery o) (Fetcher.data f))
               (fun rows =>
                  Table.OrganizationsTable
                    {| Table.organizations := rows;
                       Table.organizationsCount := orZero (firstTotal c);
                       Table.isLoading :=
                         Fetcher.state_eqb (Fetcher.state f) Fetcher.submitting;
                       Table.currentPage := p |}))).
Proof.
  erewrite page_of_success.
  - reflexivity.
  - cbn [loaderData]. rewrite lookup_insert_ne by done.
    now rewrite lookup_singleton_ne.
  - cbn [loaderData]. apply lookup_insert_eq.
  - unfold organizationsCount. cbn [loaderData].
    rewrite lookup_insert_ne by done. now rewrite lookup_singleton_eq.
Qed.

(** The bounds the action reads from the form of a page change. *)
Lemma submission_bounds p :
  let fd := map (fun kv => (fst kv, Resources.EntryString (snd kv)))
                (Fetcher.target (submissionFor ((p - 1) * 10))) in
  Resources.limit fd = 10 /\ Resources.offset fd = (p - 1) * 10.
Proof.
  cbv zeta. unfold Resources.limit, Resources.offset.
  change (Resources.ToString (Resources.FormData_get _ (str "limit")))
    with (toString 10).
  change (Resources.ToString (Resources.FormData_get _ (str "offset")))
    with (toString ((p - 1) * 10)).
  rewrite !parseInt_toString. cbn [or_default]. split; [reflexivity |].
  destruct (Z.eqb_spec ((p - 1) * 10) 0) as [-> | _]; reflexivity.
Qed.

(** X19: the first screen of a successful load.  When the organizations
    query returns rows and the first row of the count query says T, the
    page shows "Page 1 of" the page count of T with "Previous" disabled, and
    "Next" is disabled exactly when all records fit one page, 1 <= T <= 10. *)
Theorem first_screen race rows T more :
  run db organizationsQuery firstPage = Normal (QueryOk rows) ->
  run db organizationsCountQuery None =
    Normal (QueryOk ({| total := T |} :: more)) ->
  exists ld table,
    fst (loader db race) = Normal ld /\
    OrganizationsPage (initial ld) =
      Some (Container "Organizations" (Renders table)) /\
    Table.pageOf table = (1, Table.totalPages T) /\
    Table.disabled (Table.previous table) = true /\
    (Table.disabled (Table.next table) = true <-> 1 <= T <= 10).
Proof.
  intros Ho Hc. rewrite (loader_returns db race _ _ Ho Hc).
  eexists. eexists. split; [reflexivity |].
  rewrite first_render. cbn [WithErrorHandling firstTotal data orZero total].
  replace (if T =? 0 then 0 else T) with T
    by (destruct (Z.eqb_spec T 0); congruence).
  split; [reflexivity |].
  cbn [Table.OrganizationsTable Table.pageOf Table.previous Table.next
       Table.disabled Table.currentPage Table.isLoading Table.organizationsCount].
  split; [reflexivity |]. split; [reflexivity |].
  rewrite orb_false_r, Z.eqb_eq, totalPages_div.
  destruct (Z.gtb_spec T 0); split; intros; try lia;
    Z.div_mod_to_equations; lia.
Qed.

(** X20: a page change from the button to the screen.  On a page that
    shows its container, going to page p sends a request which the action
    answers from the paginated query at limit 10, offset 10 (p - 1); the
    arrival of the answer leaves the total count as it was, and the
    revalidation that follows replaces it.  When the reloaded queries
    return: if the action's query returned rows, the page shows exactly
    those rows (not the first page the loader fetched again) as page p, not
    loading, under the total count of the new load; if the action's query
    threw, the page shows the action's fixed message in place of the table.
    When a reloaded query throws, the page is the loader's error message
    alone. *)
Theorem page_change_end_to_end s heading w p db' race :
  OrganizationsPage s = Some (Container heading w) ->
  exists sub response,
    last (Fetcher.submissions (fetcher (handlePageChange p s))) = Some sub /\
    fst (Resources.action db (request_of sub)) = Normal response /\
    let settled :=
      step (handlePageChange p s) (Settled (Resources.json response)) in
    let after := step settled (Revalidated db' race) in
    organizationsCount settled = organizationsCount s /\
    (forall rows o' c',
       run db organizationsQuery (Some [str "10"; toString ((p - 1) * 10)])
         = Normal (QueryOk rows) ->
       run db' organizationsQuery firstPage = Normal o' ->
       run db' organizationsCountQuery None = Normal c' ->
       OrganizationsPage after =
         Some (Container heading
                 (Renders (Table.OrganizationsTable
                             {| Table.organizations := rows;
                                Table.organizationsCount := orZero (firstTotal c');
                                Table.isLoading := false;
                                Table.currentPage := p |})))) /\
    (forall o' c',
       throws (run db organizationsQuery (Some [str "10"; toString ((p - 1) * 10)])) ->
       run db' organizationsQuery firstPage = Normal o' ->
       run db' organizationsCountQuery None = Normal c' ->
       OrganizationsPage after =
         Some (Container heading (ShowsError "Failed to fetch organizations"))) /\
    (forall e,
       firstRejection db' race = Some e ->
       OrganizationsPage after = Some (ErrorOnly (ShowsError (messageOf e)))).
Proof.
  intros H. destruct (page_container_inv _ _ _ H) as (-> & He & o & c & Ho & Hc).
  exists (submissionFor ((p - 1) * 10)).
  pose proof (submission_bounds p) as [Hl Hf]. cbv zeta in Hl, Hf.
  pose proof (action_post db (request_of (submissionFor ((p - 1) * 10))) _
                eq_refl eq_refl) as Ha.
  cbv zeta in Ha. rewrite Hl, Hf in Ha.
  change (toString 10) with (str "10") in Ha.
  destruct (run db organizationsQuery (Some [str "10"; toString ((p - 1) * 10)]))
    as [[d | m] | e]; rewrite Ha; eexists;
    (split; [apply handlePageChange_last |]);
    (split; [reflexivity |]);
    cbv zeta; cbn [fst Resources.json Resources.Response_json];
    (split; [reflexivity |]);
    (split;
     [ intros rows o' c' Hq Ho' Hc'; cbn [step];
       rewrite (loader_returns db' race o' c' Ho' Hc'); cbn [fst];
       rewrite page_after_load;
       first [ discriminate Hq | injection Hq as <-; reflexivity ]
     | split;
       [ intros o' c' Ht Ho' Hc'; cbn [step];
         rewrite (loader_returns db' race o' c' Ho' Hc'); cbn [fst];
         rewrite page_after_load;
         first [ destruct Ht; fail | reflexivity ]
       | intros e' He'; cbn [step];
         rewrite (loader_rejected db' race e' He');
         unfold OrganizationsPage; cbn [loaderData];
         rewrite lookup_singleton_eq; reflexivity ] ]).
Qed.

End EndToEnd.

(** Witness of X19: the sample database, 25 records. *)
Lemma first_screen_witness :
  exists ld table,
    fst (loader sampleDb FirstSettlesFirst) = Normal ld /\
    OrganizationsPage (initial ld) =
      Some (Container "Organizations" (Renders table)) /\
    Table.pageOf table = (1, Table.totalPages 25).
Proof.
  destruct (first_screen sampleDb FirstSettlesFirst [acme] 25 [] eq_refl eq_refl)
    as (ld & table & H1 & H2 & H3 & _).
  exists ld, table. auto.
Defined.

(** Witness of X20: page 2 of the sample load, answered by the sample
    database and revalidated against the grown table. *)
Lemma page_change_end_to_end_witness :
  exists sub response,
    last (Fetcher.submissions (fetcher (handlePageChange 2 (initial sampleData))))
      = Some sub /\
    fst (Resources.action sampleDb (request_of sub)) = Normal response /\
    OrganizationsPage
      (step (step (handlePageChange 2 (initial sampleData))
                  (Settled (Resources.json response)))
            (Revalidated grownDb FirstSettlesFirst)) =
      Some (Container "Organizations"
              (Renders (Table.OrganizationsTable
                          {| Table.organizations := [acme];
                             Table.organizationsCount := 47;
                             Table.isLoading := false;
                             Table.currentPage := 2 |}))).
Proof.
  destruct (page_change_end_to_end sampleDb (initial sampleData)
              "Organizations" _ 2 grownDb FirstSettlesFirst eq_refl)
    as (sub & response & H1 & H2 & _ & H3 & _).
  exists sub, response. split; [exact H1 |]. split; [exact H2 |].
  exact (H3 [acme] (QueryOk [acme]) (QueryOk [{| total := 47 |}])
           eq_refl eq_refl eq_refl).
Defined.
